(** * Battery Notifier: a shallow embedding of [battery_notifier.py]

    The script is a settings store kept in a JSON file, a settings dialog
    and a polling loop that raises a message box when the battery crosses
    a threshold.  Python values are embedded as [pyval], dictionaries as
    [gmap string pyval], and every function that touches the file system,
    the screen or the clock as a computation in a state-and-exception
    monad [M]. *)

From stdpp Require Import gmap strings list fin_maps pretty.
From Stdlib Require Import ZArith Lia Ascii.

Set Warnings "-register-all".
Local Open Scope Z_scope.

(** ** Python values *)

(** The values [json.load] can produce, which are also the values a
    settings dictionary can hold.  JSON real numbers (Python [float]) are
    left out of the embedding. *)
Inductive pyval :=
  | PNone
  | PBool (b : bool)
  | PInt (z : Z)
  | PStr (s : string)
  | PList (l : list pyval)
  | PDict (d : gmap string pyval).

(** The exception classes the script can meet; all of them derive from
    [Exception], so [except Exception] catches every one.
    [KeyboardInterrupt] and [SystemExit] (process termination) are not
    embedded.  [JSONDecodeError] and [UnicodeDecodeError] are [ValueError]s. *)
Inductive exn_class :=
  | OSError | ValueError | TypeError | AttributeError | KeyError
  | ImportError | TclError | RuntimeError.

Record exn := Exn { exn_cls : exn_class; exn_msg : string }.

Inductive result (A : Type) :=
  | Ok (a : A)
  | Raise (e : exn).
Arguments Ok {A} a.
Arguments Raise {A} e.

(** ** State and exceptions *)

(** A computation over a state [S]: it ends with a value or with a raised
    exception, and in both cases leaves a state behind (what a Python
    function has written before raising stays written). *)
Definition M (S A : Type) : Type := S → result A * S.

#[export] Instance M_ret {S} : MRet (M S) := λ A a s, (Ok a, s).
#[export] Instance M_bind {S} : MBind (M S) := λ A B f m s,
  match m s with
  | (Ok a, s') => f a s'
  | (Raise e, s') => (Raise e, s')
  end.

Definition raise {S A} (e : exn) : M S A := λ s, (Raise e, s).
Definition gets {S A} (f : S → A) : M S A := λ s, (Ok (f s), s).
Definition modify {S} (f : S → S) : M S () := λ s, (Ok (), f s).

(** [try: m except Exception as e: h e] *)
Definition try_except {S A} (m : M S A) (h : exn → M S A) : M S A := λ s,
  match m s with
  | (Ok a, s') => (Ok a, s')
  | (Raise e, s') => h e s'
  end.

(** Runs a computation over a component [T] of the state [S]. *)
Definition zoom {S T A} (get : S → T) (set : T → S → S) (m : M T A) : M S A :=
  λ s, let '(r, t) := m (get s) in (r, set t s).

Definition lift_result {S A} (r : result A) : M S A := λ s, (r, s).

#[export] Instance result_ret : MRet result := λ A a, Ok a.
#[export] Instance result_bind : MBind result := λ A B f r,
  match r with
  | Ok a => f a
  | Raise e => Raise e
  end.

(** ** Built-in operations on values *)

Definition Z_of_bool (b : bool) : Z := if b then 1 else 0.

Definition type_name (v : pyval) : string :=
  match v with
  | PNone => "NoneType" | PBool _ => "bool" | PInt _ => "int"
  | PStr _ => "str" | PList _ => "list" | PDict _ => "dict"
  end.

(** [d[k]] *)
Definition getitem (d : gmap string pyval) (k : string) : result pyval :=
  match d !! k with
  | Some v => Ok v
  | None => Raise (Exn KeyError k)
  end.

(** [d.get(k, dflt)] *)
Definition dict_get (d : gmap string pyval) (k : string) (dflt : pyval) : pyval :=
  default dflt (d !! k).

(** [v.items()]: only a dictionary has the attribute. *)
Definition items (v : pyval) : result (gmap string pyval) :=
  match v with
  | PDict d => Ok d
  | _ => Raise (Exn AttributeError
                 ("'" +:+ type_name v +:+ "' object has no attribute 'items'"))
  end.

(** [a <= v] and [a >= v] for an [int] [a]: defined against [int] and
    [bool] (a subclass of [int]), a [TypeError] against anything else. *)
Definition int_le (a : Z) (v : pyval) : result bool :=
  match v with
  | PInt b => Ok (a <=? b)
  | PBool b => Ok (a <=? Z_of_bool b)
  | _ => Raise (Exn TypeError
                 ("'<=' not supported between instances of 'int' and '"
                  +:+ type_name v +:+ "'"))
  end.

Definition int_ge (a : Z) (v : pyval) : result bool :=
  match v with
  | PInt b => Ok (a >=? b)
  | PBool b => Ok (a >=? Z_of_bool b)
  | _ => Raise (Exn TypeError
                 ("'>=' not supported between instances of 'int' and '"
                  +:+ type_name v +:+ "'"))
  end.

(** [b != v] for a [bool] [b]: never raises; [True == 1] and [False == 0]. *)
Definition bool_ne (b : bool) (v : pyval) : bool :=
  match v with
  | PBool b' => negb (Bool.eqb b b')
  | PInt z => negb (Z_of_bool b =? z)
  | _ => true
  end.

(** *** [int(...)] *)

Definition is_space (c : ascii) : bool :=
  let n := nat_of_ascii c in
  (Nat.eqb n 32 || (Nat.leb 9 n && Nat.leb n 13))%bool.

Definition digit_of (c : ascii) : option Z :=
  let n := nat_of_ascii c in
  if (Nat.leb 48 n && Nat.leb n 57)%bool then Some (Z.of_nat (n - 48)) else None.

Fixpoint lstrip (s : string) : string :=
  match s with
  | String c s' => if is_space c then lstrip s' else s
  | EmptyString => EmptyString
  end.

(** Digits, single underscores allowed between two digits, then only
    white space.  [acc] is the value read so far, [prev] tells whether
    the previous character was a digit. *)
Fixpoint digits_from (acc : Z) (prev : bool) (s : string) : option Z :=
  match s with
  | EmptyString => if prev then Some acc else None
  | String c s' =>
      match digit_of c with
      | Some d => digits_from (10 * acc + d) true s'
      | None =>
          if Ascii.eqb c "_"%char then
            (if prev then
               match s' with
               | String c' _ =>
                   match digit_of c' with
                   | Some _ => digits_from acc false s'
                   | None => None
                   end
               | EmptyString => None
               end
             else None)
          else if (prev && is_space c)%bool then
            (match lstrip s' with EmptyString => Some acc | _ => None end)
          else None
      end
  end.

(** [int(s)] for an ASCII string, base ten: optional surrounding white
    space, an optional sign, digits. *)
Definition int_of_str (s : string) : option Z :=
  match lstrip s with
  | String "-"%char s' => Z.opp <$> digits_from 0 false s'
  | String "+"%char s' => digits_from 0 false s'
  | s' => digits_from 0 false s'
  end.

Definition py_int (v : pyval) : result Z :=
  match v with
  | PInt z => Ok z
  | PBool b => Ok (Z_of_bool b)
  | PStr s =>
      match int_of_str s with
      | Some z => Ok z
      | None => Raise (Exn ValueError
                        ("invalid literal for int() with base 10: '" +:+ s +:+ "'"))
      end
  | _ => Raise (Exn TypeError
                 ("int() argument must be a string, a bytes-like object or a real number, not '"
                  +:+ type_name v +:+ "'"))
  end.

(** ** The settings store *)

Definition DEFAULTS : gmap string pyval :=
  {[ "low_threshold" := PInt 20;
     "high_threshold" := PInt 80;
     "poll_seconds" := PInt 60;
     "start_with_windows" := PBool true ]}.

(** What is found at [SETTINGS_PATH]: nothing that is a regular file, a
    file [open] refuses, a file whose text [json.load] rejects, or a file
    holding a JSON document. *)
Inductive file_state :=
  | Absent
  | Unreadable
  | Malformed
  | Document (v : pyval).

(** The part of the machine the script acts on.  [json.dump] followed by
    [json.load] is taken to give back the value written: the file holds
    the document itself. *)
Record host := {
  app_dir : bool;              (* os.path.isdir(APP_DIR) *)
  mkdir_ok : bool;             (* os.makedirs(APP_DIR) would succeed *)
  settings_file : file_state;
  write_ok : bool;             (* open(SETTINGS_PATH, "w") would succeed *)
  platform_win32 : bool;       (* sys.platform == "win32" *)
  pywin32 : bool;              (* import win32com.client succeeds *)
  shortcut : bool;             (* os.path.exists(STARTUP_SHORTCUT_PATH) *)
  shortcut_ok : bool           (* creating or removing the shortcut would succeed *)
}.

Definition set_app_dir (b : bool) (h : host) : host :=
  {| app_dir := b; mkdir_ok := mkdir_ok h; settings_file := settings_file h;
     write_ok := write_ok h; platform_win32 := platform_win32 h;
     pywin32 := pywin32 h; shortcut := shortcut h; shortcut_ok := shortcut_ok h |}.

Definition set_settings_file (f : file_state) (h : host) : host :=
  {| app_dir := app_dir h; mkdir_ok := mkdir_ok h; settings_file := f;
     write_ok := write_ok h; platform_win32 := platform_win32 h;
     pywin32 := pywin32 h; shortcut := shortcut h; shortcut_ok := shortcut_ok h |}.

Definition set_shortcut (b : bool) (h : host) : host :=
  {| app_dir := app_dir h; mkdir_ok := mkdir_ok h; settings_file := settings_file h;
     write_ok := write_ok h; platform_win32 := platform_win32 h;
     pywin32 := pywin32 h; shortcut := b; shortcut_ok := shortcut_ok h |}.

(** [APP_DIR] is never the empty string, so the first conjunct of the
    test is always true. *)
Definition ensure_app_dir : M host () := λ h,
  if app_dir h then (Ok (), h)
  else if mkdir_ok h then (Ok (), set_app_dir true h)
  else (Raise (Exn OSError "makedirs"), h).

(** [with open(SETTINGS_PATH, "r") as f: data = json.load(f)] *)
Definition read_json : M host pyval := λ h,
  match settings_file h with
  | Document v => (Ok v, h)
  | Malformed => (Raise (Exn ValueError "Expecting value"), h)
  | Unreadable => (Raise (Exn OSError "open"), h)
  | Absent => (Raise (Exn OSError "No such file or directory"), h)
  end.

Definition isfile (h : host) : bool :=
  match settings_file h with Absent => false | _ => true end.

(** [for k, v in data.items(): if k in cfg: cfg[k] = v] *)
Definition overlay (data cfg : gmap string pyval) : gmap string pyval :=
  map_fold (λ k v cfg, if decide (is_Some (cfg !! k)) then <[k:=v]> cfg else cfg)
           cfg data.

Definition load_settings : M host (gmap string pyval) :=
  _ ← ensure_app_dir;
  present ← gets isfile;
  data ← (if present : bool
          then try_except read_json (λ _, mret (PDict ∅))
          else mret (PDict ∅));
  let cfg := DEFAULTS in
  d ← lift_result (items data);
  mret (overlay d cfg).

(** [with open(SETTINGS_PATH, "w") as f: json.dump(s, f, indent=2)] *)
Definition write_json (s : gmap string pyval) : M host () := λ h,
  if write_ok h then (Ok (), set_settings_file (Document (PDict s)) h)
  else (Raise (Exn OSError "open"), h).

Definition save_settings (s : gmap string pyval) : M host () :=
  _ ← ensure_app_dir;
  write_json s.

(** ** What the script shows, prints and waits for *)

Inductive event :=
  | ENotify (title message : string)     (* show_notification_messagebox(title, message) is called *)
  | EShowError (title message : string)  (* messagebox.showerror(title, message) *)
  | EPrint (line : string)               (* print(line) *)
  | ESleep (seconds : Z)                 (* time.sleep(seconds) *)
  | EEnable                              (* enable_auto_startup() is called *)
  | EDisable                             (* disable_auto_startup() is called *)
  | EDestroy.                            (* root.destroy() *)

(** The machine, the module-level dictionary [SETTINGS] and everything
    the process has shown, printed or slept so far, oldest first. *)
Record world := {
  machine : host;
  SETTINGS : gmap string pyval;
  out : list event
}.

Definition set_machine (h : host) (w : world) : world :=
  {| machine := h; SETTINGS := SETTINGS w; out := out w |}.
Definition set_SETTINGS (d : gmap string pyval) (w : world) : world :=
  {| machine := machine w; SETTINGS := d; out := out w |}.
Definition set_out (l : list event) (w : world) : world :=
  {| machine := machine w; SETTINGS := SETTINGS w; out := l |}.

Definition on_host {A} (m : M host A) : M world A := zoom machine set_machine m.

Definition emit (e : event) : M world () := modify (λ w, set_out (out w ++ [e]) w).

(** ** Startup registration *)

(** [import win32com.client] *)
Definition import_win32com : M world () :=
  ok ← gets (λ w, pywin32 (machine w));
  if ok : bool then mret () else raise (Exn ImportError "No module named 'win32com'").

(** The body of the [try] of [enable_auto_startup]: the shortcut is
    created and saved. *)
Definition create_shortcut : M world () :=
  ok ← gets (λ w, shortcut_ok (machine w));
  if ok : bool then modify (λ w, set_machine (set_shortcut true (machine w)) w)
  else raise (Exn OSError "CreateShortCut").

Definition enable_auto_startup : M world () :=
  _ ← emit EEnable;
  _ ← import_win32com;
  win ← gets (λ w, platform_win32 (machine w));
  if negb win then mret ()
  else try_except create_shortcut
         (λ e, emit (EPrint ("Failed to enable auto-startup: " +:+ exn_msg e))).

(** The body of the [try] of [disable_auto_startup]. *)
Definition remove_shortcut : M world () :=
  present ← gets (λ w, shortcut (machine w));
  if present : bool then
    ok ← gets (λ w, shortcut_ok (machine w));
    if ok : bool then modify (λ w, set_machine (set_shortcut false (machine w)) w)
    else raise (Exn OSError "remove")
  else mret ().

Definition disable_auto_startup : M world () :=
  _ ← emit EDisable;
  win ← gets (λ w, platform_win32 (machine w));
  if negb win then mret ()
  else try_except remove_shortcut
         (λ e, emit (EPrint ("Failed to disable auto-startup: " +:+ exn_msg e))).

(** ** The settings dialog *)

(** What an [IntVar] holds: text that [get()] reads as the integer [z],
    or text that makes [get()] raise [TclError]. *)
Inductive entry :=
  | Num (z : Z)
  | Garbage.

Definition intvar_get {S} (e : entry) : M S Z :=
  match e with
  | Num z => mret z
  | Garbage => raise (Exn TclError "expected floating-point number")
  end.

(** The local variables of [open_settings_window] that [save_and_close]
    closes over, with the process state. *)
Record dialog := {
  dw : world;
  s : gmap string pyval;
  low_var : entry;
  high_var : entry;
  poll_var : entry;
  start_with_windows_var : bool;
  root_open : bool
}.

Definition set_dw (w : world) (d : dialog) : dialog :=
  {| dw := w; s := s d; low_var := low_var d; high_var := high_var d;
     poll_var := poll_var d; start_with_windows_var := start_with_windows_var d;
     root_open := root_open d |}.
Definition set_s (x : gmap string pyval) (d : dialog) : dialog :=
  {| dw := dw d; s := x; low_var := low_var d; high_var := high_var d;
     poll_var := poll_var d; start_with_windows_var := start_with_windows_var d;
     root_open := root_open d |}.
Definition set_low_var (e : entry) (d : dialog) : dialog :=
  {| dw := dw d; s := s d; low_var := e; high_var := high_var d;
     poll_var := poll_var d; start_with_windows_var := start_with_windows_var d;
     root_open := root_open d |}.
Definition set_high_var (e : entry) (d : dialog) : dialog :=
  {| dw := dw d; s := s d; low_var := low_var d; high_var := e;
     poll_var := poll_var d; start_with_windows_var := start_with_windows_var d;
     root_open := root_open d |}.
Definition set_poll_var (e : entry) (d : dialog) : dialog :=
  {| dw := dw d; s := s d; low_var := low_var d; high_var := high_var d;
     poll_var := e; start_with_windows_var := start_with_windows_var d;
     root_open := root_open d |}.
Definition set_start_var (b : bool) (d : dialog) : dialog :=
  {| dw := dw d; s := s d; low_var := low_var d; high_var := high_var d;
     poll_var := poll_var d; start_with_windows_var := b;
     root_open := root_open d |}.
Definition set_root_open (b : bool) (d : dialog) : dialog :=
  {| dw := dw d; s := s d; low_var := low_var d; high_var := high_var d;
     poll_var := poll_var d; start_with_windows_var := start_with_windows_var d;
     root_open := b |}.

Definition in_world {A} (m : M world A) : M dialog A := zoom dw set_dw m.

(** [s[k] = v] *)
Definition setitem_s (k : string) (v : pyval) : M dialog () :=
  modify (λ d, set_s (<[k:=v]> (s d)) d).

Definition root_destroy : M dialog () :=
  _ ← in_world (emit EDestroy);
  modify (set_root_open false).

(** The [try] block of [save_and_close]. *)
Definition save_and_close_body : M dialog () :=
  lo ← (e ← gets low_var; intvar_get e);
  _ ← setitem_s "low_threshold" (PInt (Z.max 1 (Z.min 100 lo)));
  hi ← (e ← gets high_var; intvar_get e);
  _ ← setitem_s "high_threshold" (PInt (Z.max 1 (Z.min 100 hi)));
  po ← (e ← gets poll_var; intvar_get e);
  _ ← setitem_s "poll_seconds" (PInt (Z.max 5 (Z.min 600 po)));
  flag ← gets start_with_windows_var;
  old ← (d ← gets s; lift_result (getitem d "start_with_windows"));
  _ ← (if bool_ne flag old then
         _ ← setitem_s "start_with_windows" (PBool flag);
         if flag then in_world enable_auto_startup
         else in_world disable_auto_startup
       else mret ());
  cur ← gets s;
  _ ← in_world (on_host (save_settings cur));
  _ ← in_world (modify (λ w, set_SETTINGS (cur ∪ SETTINGS w) w));
  root_destroy.

Definition save_and_close : M dialog () :=
  try_except save_and_close_body
    (λ ex,
       match exn_cls ex with
       | TclError =>
           in_world (emit (EShowError "Invalid Input" "Please enter valid numbers."))
       | _ =>
           in_world (emit (EShowError "Error"
                       ("An error occurred while saving settings: " +:+ exn_msg ex)))
       end).

(** What the user does while [root.mainloop()] runs. *)
Inductive action :=
  | TypeLow (e : entry)
  | TypeHigh (e : entry)
  | TypePoll (e : entry)
  | ToggleStart
  | ClickSave
  | ClickCancel.

Definition handle (a : action) : M dialog () :=
  match a with
  | TypeLow e => modify (set_low_var e)
  | TypeHigh e => modify (set_high_var e)
  | TypePoll e => modify (set_poll_var e)
  | ToggleStart => modify (λ d, set_start_var (negb (start_with_windows_var d)) d)
  | ClickSave => save_and_close
  | ClickCancel => root_destroy
  end.

(** [root.mainloop()]: the actions are handled in turn until the window
    is destroyed. *)
Fixpoint mainloop (acts : list action) : M dialog () :=
  match acts with
  | [] => mret ()
  | a :: rest =>
      is_open ← gets root_open;
      if is_open : bool then (_ ← handle a; mainloop rest) else mret ()
  end.

(** [BooleanVar(value=v)]: [None] leaves the default [False]; an [int]
    or [bool] is its truth value; a string goes through Tcl's reading of
    booleans, [tcl_getboolean]; anything else is a [TypeError]. *)
Definition booleanvar_init (tcl_getboolean : string → option bool) (v : pyval)
  : result bool :=
  match v with
  | PNone => Ok false
  | PBool b => Ok b
  | PInt z => Ok (negb (z =? 0))
  | PStr x =>
      match tcl_getboolean x with
      | Some b => Ok b
      | None => Raise (Exn TclError ("expected boolean value but got '" +:+ x +:+ "'"))
      end
  | _ => Raise (Exn TypeError ("must be str, not " +:+ type_name v))
  end.

(** Runs the dialog's callbacks from the local variables [d0 w] and
    leaves the process state they end with. *)
Definition with_dialog {A} (d0 : world → dialog) (m : M dialog A) : M world A :=
  λ w, let '(r, d) := m (d0 w) in (r, dw d).

(** The dialog: the settings are loaded, the four variables are filled
    from them (the conversions may raise), and the callbacks run on what
    the user does.  The Tk calls that build the window are taken to
    succeed.  [tcl_getboolean] is Tcl's reading of a string as a boolean,
    which [BooleanVar] applies to a string value. *)
Definition open_settings_window (tcl_getboolean : string → option bool)
    (acts : list action) : M world () :=
  _ ← import_win32com;
  s0 ← on_host load_settings;
  lo ← lift_result (v ← getitem s0 "low_threshold"; py_int v);
  hi ← lift_result (v ← getitem s0 "high_threshold"; py_int v);
  po ← lift_result (v ← getitem s0 "poll_seconds"; py_int v);
  st ← lift_result (v ← getitem s0 "start_with_windows";
                    booleanvar_init tcl_getboolean v);
  with_dialog
    (λ w, {| dw := w; s := s0; low_var := Num lo; high_var := Num hi;
             poll_var := Num po; start_with_windows_var := st;
             root_open := true |})
    (mainloop acts).

(** ** The polling loop *)

(** The value of [last_alert]: [None], ["low"] or ["high"]. *)
Inductive alert := ANone | ALow | AHigh.

#[export] Instance alert_eq_dec : EqDecision alert.
Proof. solve_decision. Defined.

(** What [psutil.sensors_battery()] returns when a battery is present.
    On Windows [percent] is an integer, so [int(round(percent))] is the
    number itself; [power_plugged] may be [None] when unknown. *)
Record sbattery := {
  percent : Z;
  power_plugged : option bool
}.

(** What the outside gives one pass of the loop: the outcome of the
    battery read, and whether showing a message box works ([None]) or
    raises. *)
Record tick_env := {
  sensors_battery : result (option sbattery);
  showinfo : option exn
}.

(** The process state with the local variable of [main_loop]. *)
Record loop := {
  lw : world;
  last_alert : alert
}.

Definition set_lw (w : world) (l : loop) : loop :=
  {| lw := w; last_alert := last_alert l |}.
Definition set_last_alert (a : alert) (l : loop) : loop :=
  {| lw := lw l; last_alert := a |}.

Definition in_lw {A} (m : M world A) : M loop A := zoom lw set_lw m.

(** The script creates a root window, hides it, shows the box and
    destroys the window; any of the Tk calls may raise. *)
Definition show_notification_messagebox (env : tick_env) (title message : string)
  : M world () :=
  _ ← emit (ENotify title message);
  match showinfo env with
  | None => mret ()
  | Some e => raise e
  end.

(** [bool(batt.power_plugged)] *)
Definition charging (b : sbattery) : bool := default false (power_plugged b).

Definition low_title (p : Z) : string := "Battery Low: " +:+ pretty p +:+ "%".
Definition high_title (p : Z) : string := "Battery High: " +:+ pretty p +:+ "%".

(** [SETTINGS[k]] *)
Definition setting (k : string) : M loop pyval :=
  d ← gets (λ l, SETTINGS (lw l));
  lift_result (getitem d k).

(** The [try] block of one pass of [main_loop]; the result is [true]
    when the pass ends with [continue]. *)
Definition tick_body (env : tick_env) : M loop bool :=
  batt ← lift_result (sensors_battery env);
  match batt with
  | None =>
      _ ← in_lw (emit (ESleep 10));
      mret true
  | Some b =>
      let current_percent := percent b in
      let current_charging := charging b in
      is_low ← (if negb current_charging
                then (t ← setting "low_threshold";
                      lift_result (int_le current_percent t))
                else mret false);
      if is_low : bool then
        prev ← gets last_alert;
        _ ← (if decide (prev ≠ ALow) then
               _ ← in_lw (show_notification_messagebox env
                            (low_title current_percent)
                            "Please connect your charger.");
               modify (set_last_alert ALow)
             else mret ());
        mret false
      else
        is_high ← (if current_charging
                   then (t ← setting "high_threshold";
                         lift_result (int_ge current_percent t))
                   else mret false);
        if is_high : bool then
          prev ← gets last_alert;
          _ ← (if decide (prev ≠ AHigh) then
                 _ ← in_lw (show_notification_messagebox env
                              (high_title current_percent)
                              "You can unplug the charger.");
                 modify (set_last_alert AHigh)
               else mret ());
          mret false
        else
          _ ← modify (set_last_alert ANone);
          mret false
  end.

(** [time.sleep(max(5, int(SETTINGS.get("poll_seconds", 60))))] *)
Definition poll_sleep : M loop () :=
  d ← gets (λ l, SETTINGS (lw l));
  n ← lift_result (py_int (dict_get d "poll_seconds" (PInt 60)));
  in_lw (emit (ESleep (Z.max 5 n))).

(** One pass of the [while True] of [main_loop].  A raised result means
    that the exception left the loop. *)
Definition tick (env : tick_env) : M loop () :=
  continued ← try_except (tick_body env)
                 (λ e, _ ← in_lw (emit (EPrint ("An error occurred: " +:+ exn_msg e)));
                       mret false);
  if continued : bool then mret () else poll_sleep.

(** The passes of the loop for the environments [envs], in order: a
    finite prefix of the run. *)
Fixpoint ticks (envs : list tick_env) : M loop () :=
  match envs with
  | [] => mret ()
  | env :: rest => _ ← tick env; ticks rest
  end.

Definition main_loop (envs : list tick_env) : M world () :=
  λ w, let '(r, l) := ticks envs {| lw := w; last_alert := ANone |} in (r, lw l).

(** ** The script *)

(** Truth value of a Python value. *)
Definition truthy (v : pyval) : bool :=
  match v with
  | PNone => false
  | PBool b => b
  | PInt z => negb (z =? 0)
  | PStr x => negb (String.eqb x "")
  | PList l => match l with [] => false | _ => true end
  | PDict d => negb (bool_decide (d = ∅))
  end.

(** [SETTINGS = load_settings()], run when the module is loaded. *)
Definition module_init : M world () :=
  cfg ← on_host load_settings;
  modify (set_SETTINGS cfg).

(** The [if __name__ == "__main__"] block, after the module is loaded.
    [argv] is [sys.argv[1:]]; with [--settings] as its first element the
    script ends in [sys.exit(0)] once the dialog returns.  The bootstrap
    of psutil (lines 13 to 68) is not part of the embedding. *)
Definition main (tcl_getboolean : string → option bool) (argv : list string)
    (acts : list action) (envs : list tick_env) : M world () :=
  _ ← module_init;
  if bool_decide (head argv = Some "--settings") then
    open_settings_window tcl_getboolean acts
  else
    d ← gets SETTINGS;
    flag ← lift_result (getitem d "start_with_windows");
    _ ← (if truthy flag then
           try_except (_ ← import_win32com; enable_auto_startup)
             (λ e, match exn_cls e with
                   | ImportError =>
                       emit (EPrint "Auto-startup not supported without pywin32. Please install it with 'pip install pywin32'")
                   | _ => raise e
                   end)
         else
           try_except (_ ← import_win32com; disable_auto_startup)
             (λ e, match exn_cls e with
                   | ImportError => mret ()
                   | _ => raise e
                   end));
    main_loop envs.

(** ** Vocabulary of the statements *)

(** [APP_DIR] exists or can be created. *)
Definition dir_ready (h : host) : bool := app_dir h || mkdir_ok h.

(** The dictionary of a settings record. *)
Definition mk_settings (lo hi po : Z) (sw : bool) : gmap string pyval :=
  {[ "low_threshold" := PInt lo;
     "high_threshold" := PInt hi;
     "poll_seconds" := PInt po;
     "start_with_windows" := PBool sw ]}.

(** A persisted value is of the kind of its default: an integer for an
    integer, a boolean for a boolean. *)
Definition same_kind (dflt v : pyval) : bool :=
  match dflt, v with
  | PInt _, PInt _ => true
  | PBool _, PBool _ => true
  | _, _ => false
  end.

(** The overlay as the specification words it: for a key of the default
    set, the persisted value when it is present and of the same kind as
    the default, the default otherwise; nothing for any other key. *)
Definition spec_overlay (data : gmap string pyval) (k : string) : option pyval :=
  match DEFAULTS !! k with
  | Some c =>
      match data !! k with
      | Some v => if same_kind c v then Some v else Some c
      | None => Some c
      end
  | None => None
  end.

(** [x] brought into the interval from [a] to [b]. *)
Definition clamp (a b x : Z) : Z :=
  if x <? a then a else if b <? x then b else x.

Definition is_note (e : event) : bool :=
  match e with ENotify _ _ => true | _ => false end.

(** The notifications among the events [l], in order. *)
Definition notes (l : list event) : list event := filter is_note l.

Definition is_registration (e : event) : bool :=
  match e with EEnable | EDisable => true | _ => false end.

(** The calls to startup registration among the events [l], in order. *)
Definition registrations (l : list event) : list event := filter is_registration l.

Definition low_note (p : Z) : event :=
  ENotify (low_title p) "Please connect your charger.".
Definition high_note (p : Z) : event :=
  ENotify (high_title p) "You can unplug the charger.".

(** The two conditions of the loop and the alert category of a sample. *)
Definition low_cond (lo : Z) (b : sbattery) : bool :=
  negb (charging b) && (percent b <=? lo).
Definition high_cond (hi : Z) (b : sbattery) : bool :=
  charging b && (percent b >=? hi).
Definition category (lo hi : Z) (b : sbattery) : alert :=
  if low_cond lo b then ALow else if high_cond hi b then AHigh else ANone.

(** A pass of the loop in which the battery reads [p] percent, plugged
    in or not, and the message box works. *)
Definition sample (p : Z) (plugged : bool) : tick_env :=
  {| sensors_battery := Ok (Some {| percent := p; power_plugged := Some plugged |});
     showinfo := None |}.

(** The same pass on a machine where showing the message box raises [e]. *)
Definition sample_no_display (p : Z) (plugged : bool) (e : exn) : tick_env :=
  {| sensors_battery := Ok (Some {| percent := p; power_plugged := Some plugged |});
     showinfo := Some e |}.

(** The poll interval of line 219, when [int(...)] accepts the setting. *)
Definition poll_interval (d : gmap string pyval) : result Z :=
  n ← py_int (dict_get d "poll_seconds" (PInt 60)); Ok (Z.max 5 n).

(** A machine used in the examples: Windows with pywin32, the application
    directory in place, and [f] at the settings path. *)
Definition a_host (f : file_state) : host :=
  {| app_dir := true; mkdir_ok := true; settings_file := f; write_ok := true;
     platform_win32 := true; pywin32 := true; shortcut := false; shortcut_ok := true |}.

Definition a_world (d : gmap string pyval) : world :=
  {| machine := a_host Absent; SETTINGS := d; out := [] |}.

Definition a_loop (d : gmap string pyval) (a : alert) : loop :=
  {| lw := a_world d; last_alert := a |}.

(** A pass of the loop in which no battery is found. *)
Definition no_battery : tick_env :=
  {| sensors_battery := Ok None; showinfo := None |}.

(** The loop state with one more event. *)
Definition push (e : event) (l : loop) : loop :=
  set_lw (set_out (out (lw l) ++ [e]) (lw l)) l.

(** The loop state that the [try] statement of a pass leaves behind, for
    a sample [b] read against the integer thresholds [lo] and [hi]. *)
Definition after_try (env : tick_env) (lo hi : Z) (b : sbattery) (l : loop) : loop :=
  match category lo hi b with
  | ANone => set_last_alert ANone l
  | a =>
      let note := if low_cond lo b then low_note (percent b)
                  else high_note (percent b) in
      if decide (last_alert l = a) then l
      else match showinfo env with
           | None => set_last_alert a (push note l)
           | Some e => push (EPrint ("An error occurred: " +:+ exn_msg e)) (push note l)
           end
  end.

(** The notification a sample calls for, if any, given the prior state. *)
Definition due (lo hi : Z) (b : sbattery) (prior : alert) : list event :=
  match category lo hi b with
  | ANone => []
  | a => if decide (prior = a) then []
         else [if low_cond lo b then low_note (percent b) else high_note (percent b)]
  end.


(** A pass of the loop in which the battery read raises [e]. *)
Definition sensor_failure (e : exn) : tick_env :=
  {| sensors_battery := Raise e; showinfo := None |}.

(** The process before the module is loaded, on the machine [h]. *)
Definition boot (h : host) : world :=
  {| machine := h; SETTINGS := ∅; out := [] |}.

(** The dictionary [s] after the three numeric assignments of
    [save_and_close]. *)
Definition assign_numbers (lo hi po : Z) (d : gmap string pyval) : gmap string pyval :=
  <["poll_seconds" := PInt (Z.max 5 (Z.min 600 po))]>
    (<["high_threshold" := PInt (Z.max 1 (Z.min 100 hi))]>
       (<["low_threshold" := PInt (Z.max 1 (Z.min 100 lo))]> d)).

(** The rest of the [try] block of [save_and_close], once the numbers are
    assigned and [s["start_with_windows"]] has been read as [old]. *)
Definition register_and_save (old : pyval) : M dialog () :=
  flag ← gets start_with_windows_var;
  _ ← (if bool_ne flag old then
         _ ← setitem_s "start_with_windows" (PBool flag);
         if flag then in_world enable_auto_startup
         else in_world disable_auto_startup
       else mret ());
  cur ← gets s;
  _ ← in_world (on_host (save_settings cur));
  _ ← in_world (modify (λ w, set_SETTINGS (cur ∪ SETTINGS w) w));
  root_destroy.




(** * Properties *)

(** ** The settings store *)

Lemma overlay_lookup (data cfg : gmap string pyval) (k : string) :
  overlay data cfg !! k =
    match cfg !! k with
    | Some c => Some (default c (data !! k))
    | None => None
    end.
Proof.
  revert k. unfold overlay.
  apply (map_fold_weak_ind (λ (r : gmap string pyval) (m : gmap string pyval),
           ∀ k, r !! k = match cfg !! k with
                         | Some c => Some (default c (m !! k))
                         | None => None
                         end)).
  - intros k. rewrite lookup_empty. by destruct (cfg !! k).
  - intros i x m r Hi IH k.
    destruct (decide (i = k)) as [->|Hne].
    + rewrite lookup_insert_eq. case_decide as Hr.
      * rewrite lookup_insert_eq. rewrite IH in Hr.
        destruct (cfg !! k); [done | by destruct Hr].
      * rewrite IH in Hr |- *. destruct (cfg !! k); [|done].
        exfalso. apply Hr. eauto.
    + rewrite (lookup_insert_ne m) by done. case_decide.
      * rewrite lookup_insert_ne by done. apply IH.
      * apply IH.
Qed.

Lemma overlay_dom (data cfg : gmap string pyval) :
  dom (overlay data cfg) = dom cfg.
Proof.
  apply set_eq. intros k. rewrite !elem_of_dom, overlay_lookup.
  destruct (cfg !! k); split; intros [? ?]; eauto; done.
Qed.

Lemma overlay_same_dom (data cfg : gmap string pyval) :
  dom data = dom cfg → overlay data cfg = data.
Proof.
  intros Hdom. apply map_eq. intros k. rewrite overlay_lookup.
  destruct (cfg !! k) as [c|] eqn:Hc, (data !! k) as [v|] eqn:Hv; try done.
  - apply (elem_of_dom_2 cfg) in Hc. rewrite <- Hdom in Hc.
    apply elem_of_dom in Hc as [? ?]. congruence.
  - apply (elem_of_dom_2 data) in Hv. rewrite Hdom in Hv.
    apply elem_of_dom in Hv as [? ?]. congruence.
Qed.

Lemma ensure_app_dir_ready h :
  dir_ready h = true → ensure_app_dir h = (Ok (), set_app_dir true h).
Proof.
  unfold dir_ready, ensure_app_dir. destruct h as [[] [] f wo pl pw sc so]; simpl; done.
Qed.

Lemma load_settings_document h d :
  dir_ready h = true → settings_file h = Document (PDict d) →
  load_settings h = (Ok (overlay d DEFAULTS), set_app_dir true h).
Proof.
  unfold dir_ready, load_settings, ensure_app_dir. intros Hd Hf.
  destruct h as [ad mk f wo pl pw sc so]; simpl in *; subst f.
  destruct ad, mk; try done; reflexivity.
Qed.

(** What [load_settings] returns at a key: the default set decides the
    keys, the file decides the values it names. *)
Lemma load_settings_lookup h d k :
  dir_ready h = true → settings_file h = Document (PDict d) →
  ∃ cfg, (load_settings h).1 = Ok cfg ∧
         cfg !! k = match DEFAULTS !! k with
                    | Some c => Some (default c (d !! k))
                    | None => None
                    end.
Proof.
  intros Hd Hf. rewrite (load_settings_document h d Hd Hf).
  eexists; split; [reflexivity | apply overlay_lookup].
Qed.

(** C4 (as amended): for every persisted record, [load_settings] returns
    a dictionary with exactly the keys of the default set; at each of
    them it holds the persisted value when the record has the key,
    whatever the kind of that value, and the default otherwise; keys
    outside the default set are ignored.  So a record that misses fields
    gets the defaults 20, 80, 60 and true for them and keeps its own
    values for the fields it has. *)
Theorem load_settings_overlay h d :
  dir_ready h = true → settings_file h = Document (PDict d) →
  ∃ cfg, (load_settings h).1 = Ok cfg ∧
    (∀ k c, DEFAULTS !! k = Some c → ∀ v, d !! k = Some v → cfg !! k = Some v) ∧
    (∀ k c, DEFAULTS !! k = Some c → d !! k = None → cfg !! k = Some c) ∧
    (∀ k, DEFAULTS !! k = None → cfg !! k = None) ∧
    (d !! "low_threshold" = None → cfg !! "low_threshold" = Some (PInt 20)) ∧
    (d !! "high_threshold" = None → cfg !! "high_threshold" = Some (PInt 80)) ∧
    (d !! "poll_seconds" = None → cfg !! "poll_seconds" = Some (PInt 60)) ∧
    (d !! "start_with_windows" = None →
       cfg !! "start_with_windows" = Some (PBool true)).
Proof.
  intros Hd Hf. rewrite (load_settings_document h d Hd Hf).
  exists (overlay d DEFAULTS). split; [reflexivity|].
  repeat split.
  - intros k c Hc v Hv. by rewrite overlay_lookup, Hc, Hv.
  - intros k c Hc Hv. by rewrite overlay_lookup, Hc, Hv.
  - intros k Hc. by rewrite overlay_lookup, Hc.
  - intros Hv. rewrite overlay_lookup, Hv. reflexivity.
  - intros Hv. rewrite overlay_lookup, Hv. reflexivity.
  - intros Hv. rewrite overlay_lookup, Hv. reflexivity.
  - intros Hv. rewrite overlay_lookup, Hv. reflexivity.
Qed.

Lemma load_settings_overlay_witness :
  ∃ cfg, (load_settings (a_host (Document (PDict {[ "poll_seconds" := PInt 30 ]})))).1
           = Ok cfg ∧
         cfg !! "poll_seconds" = Some (PInt 30) ∧
         cfg !! "low_threshold" = Some (PInt 20).
Proof.
  destruct (load_settings_overlay
              (a_host (Document (PDict {[ "poll_seconds" := PInt 30 ]})))
              {[ "poll_seconds" := PInt 30 ]} eq_refl eq_refl)
    as (cfg & Hload & Hpresent & _ & _ & Hlow & _).
  exists cfg. split; [exact Hload|]. split.
  - apply (Hpresent "poll_seconds" (PInt 60)); reflexivity.
  - apply Hlow. reflexivity.
Defined.

(** C4 (counterexample): the record [{"low_threshold": "abc"}] holds a
    string where the default is an integer; the overlay of the
    specification keeps the default 20, [load_settings] returns the
    string. *)
Lemma load_settings_keeps_other_kinds :
  let d : gmap string pyval := {[ "low_threshold" := PStr "abc" ]} in
  ∃ cfg, (load_settings (a_host (Document (PDict d)))).1 = Ok cfg ∧
         cfg !! "low_threshold" = Some (PStr "abc") ∧
         spec_overlay d "low_threshold" = Some (PInt 20) ∧
         cfg !! "low_threshold" ≠ spec_overlay d "low_threshold".
Proof.
  intros d. eexists. split; [reflexivity|].
  repeat split; try by vm_compute.
Qed.

(** C6 (the failing input): a settings file that holds the JSON document
    [[]] is well-formed JSON, so the [try] around the read does not fire;
    [data.items()] then raises [AttributeError] out of [load_settings]. *)
Theorem load_settings_raises_on_list :
  (load_settings (a_host (Document (PList [])))).1
  = Raise (Exn AttributeError "'list' object has no attribute 'items'").
Proof. reflexivity. Qed.

Lemma mk_settings_dom lo hi po sw : dom (mk_settings lo hi po sw) = dom DEFAULTS.
Proof. unfold mk_settings, DEFAULTS. rewrite !dom_insert_L. reflexivity. Qed.




(** ** The polling loop *)

Arguments low_title : simpl never.
Arguments high_title : simpl never.
Arguments ticks : simpl never.

Ltac unfold_loop :=
  unfold setting, show_notification_messagebox, in_lw, zoom, getitem, int_le, int_ge,
    lift_result, gets, modify, emit, raise, mbind, M_bind, mret, M_ret, push,
    low_note, high_note.

(** The [try] block on a sample read off the charger: only the low
    threshold is looked at. *)
Lemma tick_body_unplugged env l b lo :
  sensors_battery env = Ok (Some b) → charging b = false →
  SETTINGS (lw l) !! "low_threshold" = Some (PInt lo) →
  tick_body env l =
    if percent b <=? lo then
      if decide (last_alert l = ALow) then (Ok false, l)
      else match showinfo env with
           | None => (Ok false, set_last_alert ALow (push (low_note (percent b)) l))
           | Some e => (Raise e, push (low_note (percent b)) l)
           end
    else (Ok false, set_last_alert ANone l).
Proof.
  intros Hb Hc Hlo. unfold tick_body.
  unfold mbind at 1, M_bind at 1, lift_result at 1. rewrite Hb, Hc.
  destruct l as [w a]. simpl in Hlo. unfold_loop. simpl. rewrite Hlo. simpl.
  destruct (percent b <=? lo); [|reflexivity].
  destruct a; simpl; destruct (showinfo env); reflexivity.
Qed.

(** The [try] block on a sample read on the charger: only the high
    threshold is looked at. *)
Lemma tick_body_plugged env l b hi :
  sensors_battery env = Ok (Some b) → charging b = true →
  SETTINGS (lw l) !! "high_threshold" = Some (PInt hi) →
  tick_body env l =
    if percent b >=? hi then
      if decide (last_alert l = AHigh) then (Ok false, l)
      else match showinfo env with
           | None => (Ok false, set_last_alert AHigh (push (high_note (percent b)) l))
           | Some e => (Raise e, push (high_note (percent b)) l)
           end
    else (Ok false, set_last_alert ANone l).
Proof.
  intros Hb Hc Hhi. unfold tick_body.
  unfold mbind at 1, M_bind at 1, lift_result at 1. rewrite Hb, Hc.
  destruct l as [w a]. simpl in Hhi. unfold_loop. simpl. rewrite Hhi. simpl.
  destruct (percent b >=? hi); [|reflexivity].
  destruct a; simpl; destruct (showinfo env); reflexivity.
Qed.

Lemma poll_sleep_spec l :
  poll_sleep l =
    match poll_interval (SETTINGS (lw l)) with
    | Ok n => (Ok (), push (ESleep n) l)
    | Raise e => (Raise e, l)
    end.
Proof.
  unfold poll_sleep, poll_interval. unfold_loop. simpl.
  destruct (py_int _); reflexivity.
Qed.

Lemma tick_unfold env l :
  tick env l =
    match tick_body env l with
    | (Ok true, l') => (Ok (), l')
    | (Ok false, l') => poll_sleep l'
    | (Raise e, l') =>
        poll_sleep (push (EPrint ("An error occurred: " +:+ exn_msg e)) l')
    end.
Proof.
  unfold tick, try_except. unfold mbind at 1, M_bind at 1.
  destruct (tick_body env l) as [[[]|e] l']; try reflexivity.
Qed.

(** One pass on an available sample with integer thresholds: the [try]
    statement leaves [after_try], then the loop sleeps. *)
Lemma tick_sample env l b lo hi :
  sensors_battery env = Ok (Some b) →
  SETTINGS (lw l) !! "low_threshold" = Some (PInt lo) →
  SETTINGS (lw l) !! "high_threshold" = Some (PInt hi) →
  tick env l = poll_sleep (after_try env lo hi b l).
Proof.
  intros Hb Hlo Hhi. rewrite tick_unfold.
  unfold after_try, category, low_cond, high_cond.
  destruct (charging b) eqn:Hc.
  - rewrite (tick_body_plugged env l b hi Hb Hc Hhi). simpl.
    destruct (percent b >=? hi); [|reflexivity].
    destruct (decide (last_alert l = AHigh)); [reflexivity|].
    destruct (showinfo env); reflexivity.
  - rewrite (tick_body_unplugged env l b lo Hb Hc Hlo). simpl.
    destruct (percent b <=? lo); [|reflexivity].
    destruct (decide (last_alert l = ALow)); [reflexivity|].
    destruct (showinfo env); reflexivity.
Qed.

Lemma poll_sleep_last_alert l : last_alert (poll_sleep l).2 = last_alert l.
Proof. rewrite poll_sleep_spec. destruct (poll_interval _); reflexivity. Qed.

Lemma poll_sleep_notes l :
  notes (out (lw (poll_sleep l).2)) = notes (out (lw l)).
Proof.
  rewrite poll_sleep_spec. destruct (poll_interval _); [|reflexivity].
  simpl. unfold notes. rewrite filter_app. simpl. apply app_nil_r.
Qed.

Lemma poll_sleep_out l :
  ∃ new, out (lw (poll_sleep l).2) = out (lw l) ++ new ∧ notes new = [].
Proof.
  rewrite poll_sleep_spec. destruct (poll_interval _) as [n|e].
  - exists [ESleep n]. split; reflexivity.
  - exists []. simpl. by rewrite app_nil_r.
Qed.

Lemma elem_of_notes e l : e ∈ notes l ↔ is_note e = true ∧ e ∈ l.
Proof.
  unfold notes. rewrite list_elem_of_filter.
  split; intros [Hn Hin]; (split; [|exact Hin]).
  - by apply Is_true_true.
  - by apply Is_true_true.
Qed.

Lemma notes_app l1 l2 : notes (l1 ++ l2) = notes l1 ++ notes l2.
Proof. apply filter_app. Qed.

(** The events of one pass on an available sample: the notification that
    is due, then events that are not notifications. *)
Lemma tick_sample_out env l b lo hi :
  sensors_battery env = Ok (Some b) →
  SETTINGS (lw l) !! "low_threshold" = Some (PInt lo) →
  SETTINGS (lw l) !! "high_threshold" = Some (PInt hi) →
  ∃ rest, out (lw (tick env l).2) = out (lw l) ++ due lo hi b (last_alert l) ++ rest
          ∧ notes rest = [].
Proof.
  intros Hb Hlo Hhi. rewrite (tick_sample env l b lo hi Hb Hlo Hhi).
  destruct (poll_sleep_out (after_try env lo hi b l)) as (new & -> & Hnew).
  unfold after_try, due.
  destruct (category lo hi b).
  - exists new. by simpl.
  - destruct (decide (last_alert l = ALow)); [by exists new|].
    destruct (showinfo env) as [e|]; simpl.
    + exists (EPrint ("An error occurred: " +:+ exn_msg e) :: new).
      split; [by rewrite <- !app_assoc | done].
    + exists new. split; [by rewrite <- !app_assoc | done].
  - destruct (decide (last_alert l = AHigh)); [by exists new|].
    destruct (showinfo env) as [e|]; simpl.
    + exists (EPrint ("An error occurred: " +:+ exn_msg e) :: new).
      split; [by rewrite <- !app_assoc | done].
    + exists new. split; [by rewrite <- !app_assoc | done].
Qed.

Lemma tick_unplugged env l b lo :
  sensors_battery env = Ok (Some b) → charging b = false →
  SETTINGS (lw l) !! "low_threshold" = Some (PInt lo) →
  showinfo env = None →
  tick env l =
    poll_sleep (if percent b <=? lo then
                  if decide (last_alert l = ALow) then l
                  else set_last_alert ALow (push (low_note (percent b)) l)
                else set_last_alert ANone l).
Proof.
  intros Hb Hc Hlo Hs. rewrite tick_unfold, (tick_body_unplugged env l b lo Hb Hc Hlo), Hs.
  destruct (percent b <=? lo); [|reflexivity].
  destruct (decide (last_alert l = ALow)); reflexivity.
Qed.

Lemma tick_plugged env l b hi :
  sensors_battery env = Ok (Some b) → charging b = true →
  SETTINGS (lw l) !! "high_threshold" = Some (PInt hi) →
  showinfo env = None →
  tick env l =
    poll_sleep (if percent b >=? hi then
                  if decide (last_alert l = AHigh) then l
                  else set_last_alert AHigh (push (high_note (percent b)) l)
                else set_last_alert ANone l).
Proof.
  intros Hb Hc Hhi Hs. rewrite tick_unfold, (tick_body_plugged env l b hi Hb Hc Hhi), Hs.
  destruct (percent b >=? hi); [|reflexivity].
  destruct (decide (last_alert l = AHigh)); reflexivity.
Qed.

Lemma ticks_cons env envs l :
  ticks (env :: envs) l =
    match tick env l with
    | (Ok _, l') => ticks envs l'
    | (Raise e, l') => (Raise e, l')
    end.
Proof. reflexivity. Qed.

Ltac step_unplugged H :=
  rewrite ticks_cons;
  erewrite tick_unplugged; [| reflexivity | reflexivity | simpl; exact H | reflexivity];
  simpl; rewrite poll_sleep_spec; simpl.

Ltac step_plugged H :=
  rewrite ticks_cons;
  erewrite tick_plugged; [| reflexivity | reflexivity | simpl; exact H | reflexivity];
  simpl; rewrite poll_sleep_spec; simpl.

(** The low scenario: 15, 14 and 16 percent off the charger, against a
    low threshold of 20, from [last_alert = None]. *)
Lemma low_scenario w :
  SETTINGS w !! "low_threshold" = Some (PInt 20) →
  notes (out (main_loop [sample 15 false] w).2) = notes (out w) ++ [low_note 15] ∧
  notes (out (main_loop [sample 15 false; sample 14 false; sample 16 false] w).2)
  = notes (out w) ++ [low_note 15].
Proof.
  intros Hlo. unfold main_loop.
  assert (Hn : notes (out w ++ [low_note 15]) = notes (out w) ++ [low_note 15])
    by apply notes_app.
  split.
  - step_unplugged Hlo.
    destruct (poll_interval (SETTINGS w)) as [n|e]; simpl.
    + by rewrite notes_app, Hn, app_nil_r.
    + exact Hn.
  - step_unplugged Hlo.
    destruct (poll_interval (SETTINGS w)) as [n|e] eqn:Hp; simpl; [|exact Hn].
    step_unplugged Hlo. rewrite Hp. simpl.
    step_unplugged Hlo. rewrite Hp. simpl.
    by rewrite !notes_app, !app_nil_r.
Qed.

(** The high scenario: 90 then 85 percent on the charger, against a high
    threshold of 80, from [last_alert = None]. *)
Lemma high_scenario w :
  SETTINGS w !! "high_threshold" = Some (PInt 80) →
  notes (out (main_loop [sample 90 true] w).2) = notes (out w) ++ [high_note 90] ∧
  notes (out (main_loop [sample 90 true; sample 85 true] w).2)
  = notes (out w) ++ [high_note 90].
Proof.
  intros Hhi. unfold main_loop.
  assert (Hn : notes (out w ++ [high_note 90]) = notes (out w) ++ [high_note 90])
    by apply notes_app.
  split.
  - step_plugged Hhi.
    destruct (poll_interval (SETTINGS w)) as [n|e]; simpl.
    + by rewrite notes_app, Hn, app_nil_r.
    + exact Hn.
  - step_plugged Hhi.
    destruct (poll_interval (SETTINGS w)) as [n|e] eqn:Hp; simpl; [|exact Hn].
    step_plugged Hhi. rewrite Hp. simpl.
    by rewrite !notes_app, !app_nil_r.
Qed.

Lemma low_cond_true lo b :
  low_cond lo b = true ↔ charging b = false ∧ percent b ≤ lo.
Proof.
  unfold low_cond. rewrite andb_true_iff, negb_true_iff, Z.leb_le. tauto.
Qed.

Lemma high_cond_true hi b :
  high_cond hi b = true ↔ charging b = true ∧ hi ≤ percent b.
Proof.
  unfold high_cond. rewrite andb_true_iff, Z.geb_le. split; intros [? ?]; split; auto; lia.
Qed.

Lemma low_high_exclusive lo hi b : low_cond lo b = true → high_cond hi b = false.
Proof. unfold low_cond, high_cond. by destruct (charging b). Qed.

Lemma low_note_ne_high_note p q : low_note p ≠ high_note q.
Proof. unfold low_note, high_note. intros [= _ H]. Qed.

Lemma not_in_silent e rest : is_note e = true → notes rest = [] → e ∉ rest.
Proof.
  intros He Hr Hin. assert (Hn : e ∈ notes rest) by (by apply elem_of_notes).
  rewrite Hr in Hn. inversion Hn.
Qed.

(** Which notification is due, in terms of the two conditions. *)
Lemma due_cases lo hi b prior :
  due lo hi b prior =
    if low_cond lo b then (if decide (prior = ALow) then [] else [low_note (percent b)])
    else if high_cond hi b
         then (if decide (prior = AHigh) then [] else [high_note (percent b)])
         else [].
Proof.
  unfold due, category.
  destruct (low_cond lo b); [reflexivity|]. destruct (high_cond hi b); reflexivity.
Qed.

Lemma low_note_due lo hi b prior :
  low_note (percent b) ∈ due lo hi b prior ↔ low_cond lo b = true ∧ prior ≠ ALow.
Proof.
  rewrite due_cases. destruct (low_cond lo b).
  - destruct (decide (prior = ALow)) as [->|Hne].
    + split; [intros H; inversion H | intros [_ H]; done].
    + split; [done | intros _; apply list_elem_of_singleton; done].
  - split; [|intros [? _]; done].
    destruct (high_cond hi b); [destruct (decide (prior = AHigh))|];
      intros H; try (by inversion H).
    apply list_elem_of_singleton in H. by apply low_note_ne_high_note in H.
Qed.

Lemma high_note_due lo hi b prior :
  high_note (percent b) ∈ due lo hi b prior ↔ high_cond hi b = true ∧ prior ≠ AHigh.
Proof.
  rewrite due_cases. destruct (low_cond lo b) eqn:Hl.
  - rewrite (low_high_exclusive lo hi b Hl).
    split; [|intros [? _]; done].
    destruct (decide (prior = ALow)); intros H; [by inversion H|].
    apply list_elem_of_singleton in H. symmetry in H. by apply low_note_ne_high_note in H.
  - destruct (high_cond hi b); [|split; [intros H; inversion H | intros [? _]; done]].
    destruct (decide (prior = AHigh)) as [->|Hne].
    + split; [intros H; inversion H | intros [_ H]; done].
    + split; [done | intros _; apply list_elem_of_singleton; done].
Qed.

Lemma due_notes lo hi b prior : notes (due lo hi b prior) = due lo hi b prior.
Proof.
  rewrite due_cases.
  destruct (low_cond lo b); [destruct (decide (prior = ALow)); reflexivity|].
  destruct (high_cond hi b); [destruct (decide (prior = AHigh)); reflexivity|].
  reflexivity.
Qed.

Lemma due_at_most_one lo hi b prior : (length (due lo hi b prior) ≤ 1)%nat.
Proof.
  rewrite due_cases.
  destruct (low_cond lo b); [destruct (decide (prior = ALow)); simpl; lia|].
  destruct (high_cond hi b); [destruct (decide (prior = AHigh)); simpl; lia|].
  simpl; lia.
Qed.

(** C1: on a pass with an available sample, the low notification fires
    exactly when the sample is off the charger at or below the low
    threshold and the prior state is not low; the high notification
    fires exactly when the sample is on the charger at or above the high
    threshold and the prior state is not high; nothing else is notified.
    In the run 15, 14, 16 percent off the charger against a low threshold
    of 20, from the initial state, one low notification fires, at the
    first sample; in the run 90, 85 percent on the charger against a high
    threshold of 80, one high notification fires, at the first sample. *)
Theorem notification_deduplication :
  (∀ env l b lo hi,
     sensors_battery env = Ok (Some b) →
     SETTINGS (lw l) !! "low_threshold" = Some (PInt lo) →
     SETTINGS (lw l) !! "high_threshold" = Some (PInt hi) →
     ∃ new, out (lw (tick env l).2) = out (lw l) ++ new ∧
       (low_note (percent b) ∈ new ↔
          (charging b = false ∧ percent b ≤ lo) ∧ last_alert l ≠ ALow) ∧
       (high_note (percent b) ∈ new ↔
          (charging b = true ∧ hi ≤ percent b) ∧ last_alert l ≠ AHigh) ∧
       (∀ e, e ∈ notes new → e = low_note (percent b) ∨ e = high_note (percent b)))
  ∧ (∀ w, SETTINGS w !! "low_threshold" = Some (PInt 20) →
       notes (out (main_loop [sample 15 false] w).2) = notes (out w) ++ [low_note 15] ∧
       notes (out (main_loop [sample 15 false; sample 14 false; sample 16 false] w).2)
       = notes (out w) ++ [low_note 15])
  ∧ (∀ w, SETTINGS w !! "high_threshold" = Some (PInt 80) →
       notes (out (main_loop [sample 90 true] w).2) = notes (out w) ++ [high_note 90] ∧
       notes (out (main_loop [sample 90 true; sample 85 true] w).2)
       = notes (out w) ++ [high_note 90]).
Proof.
  split; [|split; [apply low_scenario | apply high_scenario]].
  intros env l b lo hi Hb Hlo Hhi.
  destruct (tick_sample_out env l b lo hi Hb Hlo Hhi) as (rest & Hout & Hrest).
  exists (due lo hi b (last_alert l) ++ rest). split; [exact Hout|].
  split; [|split].
  - rewrite elem_of_app, low_note_due, low_cond_true.
    split; [intros [H|H]; [exact H|] | intros H; by left].
    by apply not_in_silent in H.
  - rewrite elem_of_app, high_note_due, high_cond_true.
    split; [intros [H|H]; [exact H|] | intros H; by left].
    by apply not_in_silent in H.
  - intros e. rewrite notes_app, Hrest, app_nil_r, due_notes, due_cases.
    destruct (low_cond lo b); [destruct (decide (last_alert l = ALow))|
      destruct (high_cond hi b); [destruct (decide (last_alert l = AHigh))|]];
      intros H; try (by inversion H); apply list_elem_of_singleton in H; auto.
Qed.

Lemma notification_deduplication_witness :
  ∃ new, out (lw (tick (sample 15 false) (a_loop DEFAULTS ANone)).2) = [] ++ new ∧
         low_note 15 ∈ new.
Proof.
  destruct (proj1 notification_deduplication (sample 15 false) (a_loop DEFAULTS ANone)
              {| percent := 15; power_plugged := Some false |} 20 80
              eq_refl eq_refl eq_refl) as (new & Hout & Hlow & _).
  exists new. split; [exact Hout|]. apply Hlow. repeat split; [simpl; lia | discriminate].
Defined.

(** C2: whatever the prior state, a pass whose sample meets neither
    condition leaves [last_alert] at [None] and notifies nothing; so does
    50 percent off the charger from the low state with the default
    thresholds. *)
Theorem rearm_on_neutral_band :
  (∀ env l b lo hi,
     sensors_battery env = Ok (Some b) →
     SETTINGS (lw l) !! "low_threshold" = Some (PInt lo) →
     SETTINGS (lw l) !! "high_threshold" = Some (PInt hi) →
     ¬ (charging b = false ∧ percent b ≤ lo) →
     ¬ (charging b = true ∧ hi ≤ percent b) →
     last_alert (tick env l).2 = ANone ∧
     notes (out (lw (tick env l).2)) = notes (out (lw l)))
  ∧ (last_alert (tick (sample 50 false) (a_loop DEFAULTS ALow)).2 = ANone ∧
     notes (out (lw (tick (sample 50 false) (a_loop DEFAULTS ALow)).2)) = []).
Proof.
  assert (Hgen : ∀ env l b lo hi,
     sensors_battery env = Ok (Some b) →
     SETTINGS (lw l) !! "low_threshold" = Some (PInt lo) →
     SETTINGS (lw l) !! "high_threshold" = Some (PInt hi) →
     ¬ (charging b = false ∧ percent b ≤ lo) →
     ¬ (charging b = true ∧ hi ≤ percent b) →
     last_alert (tick env l).2 = ANone ∧
     notes (out (lw (tick env l).2)) = notes (out (lw l))).
  { intros env l b lo hi Hb Hlo Hhi Hnl Hnh.
    rewrite <- low_cond_true in Hnl. rewrite <- high_cond_true in Hnh.
    apply not_true_is_false in Hnl, Hnh.
    rewrite (tick_sample env l b lo hi Hb Hlo Hhi).
    rewrite poll_sleep_last_alert, poll_sleep_notes.
    unfold after_try, category. rewrite Hnl, Hnh. split; reflexivity. }
  split; [exact Hgen|].
  apply (Hgen (sample 50 false) (a_loop DEFAULTS ALow)
           {| percent := 50; power_plugged := Some false |} 20 80);
    try reflexivity; simpl; intros [? ?]; (lia || discriminate).
Qed.

Lemma rearm_on_neutral_band_witness :
  last_alert (tick (sample 50 true) (a_loop DEFAULTS AHigh)).2 = ANone.
Proof.
  apply (proj1 rearm_on_neutral_band (sample 50 true) (a_loop DEFAULTS AHigh)
           {| percent := 50; power_plugged := Some true |} 20 80);
    try reflexivity; simpl; intros [? ?]; (lia || discriminate).
Defined.

Lemma poll_sleep_frame l :
  SETTINGS (lw (poll_sleep l).2) = SETTINGS (lw l) ∧
  machine (lw (poll_sleep l).2) = machine (lw l).
Proof. rewrite poll_sleep_spec. destruct (poll_interval _); split; reflexivity. Qed.

(** C10 (as amended): on a pass with an available sample in which the
    message box does not raise, the resulting state is the category of
    the sample (low, high or none), the same from every prior state; the
    prior state only decides whether a notification fires, and at most
    one fires per pass.  When the message box raises, the state keeps its
    prior value. *)
Theorem post_tick_state env w b lo hi :
  sensors_battery env = Ok (Some b) →
  SETTINGS w !! "low_threshold" = Some (PInt lo) →
  SETTINGS w !! "high_threshold" = Some (PInt hi) →
  let after a := (tick env {| lw := w; last_alert := a |}).2 in
  (showinfo env = None →
     ∀ a1 a2, last_alert (after a1) = category lo hi b ∧
              last_alert (after a2) = last_alert (after a1)) ∧
  (∀ a, ∃ new, out (lw (after a)) = out w ++ new ∧
               (length (notes new) ≤ 1)%nat ∧
               (notes new ≠ [] → a ≠ category lo hi b) ∧
               SETTINGS (lw (after a)) = SETTINGS w ∧
               machine (lw (after a)) = machine w) ∧
  (∀ e a, showinfo env = Some e → notes (out (lw (after a))) ≠ notes (out w) →
          last_alert (after a) = a).
Proof.
  intros Hb Hlo Hhi after.
  assert (Hafter : ∀ a, after a
            = (poll_sleep (after_try env lo hi b {| lw := w; last_alert := a |})).2).
  { intros a. unfold after. by rewrite (tick_sample env {| lw := w; last_alert := a |} b lo hi Hb Hlo Hhi). }
  split; [|split].
  - intros Hshow.
    assert (H1 : ∀ a, last_alert (after a) = category lo hi b).
    { intros a. rewrite Hafter, poll_sleep_last_alert. unfold after_try. rewrite Hshow.
      destruct (category lo hi b); [reflexivity| |];
        (destruct (decide _) as [Heq|]; [exact Heq | reflexivity]). }
    intros a1 a2. by rewrite !H1.
  - intros a.
    destruct (tick_sample_out env {| lw := w; last_alert := a |} b lo hi Hb Hlo Hhi)
      as (rest & Hout & Hrest).
    exists (due lo hi b a ++ rest). fold (after a) in Hout.
    split; [exact Hout|]. rewrite notes_app, Hrest, app_nil_r, due_notes.
    split; [apply due_at_most_one|]. split.
    + unfold due. destruct (category lo hi b); [done| |];
        (destruct (decide _); [done | intros _; done]).
    + rewrite Hafter. destruct (poll_sleep_frame
        (after_try env lo hi b {| lw := w; last_alert := a |})) as [-> ->].
      unfold after_try.
      destruct (category lo hi b); [by split| |];
        (destruct (decide _); [by split|]); destruct (showinfo env); by split.
  - intros e a Hshow Hfired. rewrite Hafter, poll_sleep_last_alert.
    rewrite Hafter, poll_sleep_notes in Hfired. revert Hfired.
    unfold after_try. rewrite Hshow.
    destruct (category lo hi b); [done| |];
      (destruct (decide _) as [Heq|]; [done | reflexivity]).
Qed.

Lemma post_tick_state_witness :
  last_alert (tick (sample 15 false) (a_loop DEFAULTS ANone)).2 = ALow ∧
  last_alert (tick (sample 15 false) (a_loop DEFAULTS ALow)).2
  = last_alert (tick (sample 15 false) (a_loop DEFAULTS ANone)).2.
Proof.
  exact (proj1 (post_tick_state (sample 15 false) (a_world DEFAULTS)
                  {| percent := 15; power_plugged := Some false |} 20 80
                  eq_refl eq_refl eq_refl) eq_refl ANone ALow).
Defined.

(** C10 (counterexample): when the message box raises, 15 percent off
    the charger leaves the state at none from none, and at low from low:
    the resulting state is not the category of the sample and depends on
    the prior state. *)
Lemma post_tick_state_depends_on_prior :
  let env := sample_no_display 15 false (Exn TclError "no display name") in
  category 20 80 {| percent := 15; power_plugged := Some false |} = ALow ∧
  last_alert (tick env (a_loop DEFAULTS ANone)).2 = ANone ∧
  last_alert (tick env (a_loop DEFAULTS ALow)).2 = ALow ∧
  last_alert (tick env (a_loop DEFAULTS ANone)).2
  ≠ last_alert (tick env (a_loop DEFAULTS ALow)).2.
Proof. by vm_compute. Qed.

(** C5 (as amended): on a pass where no battery is found the loop sleeps
    a fixed 10 seconds and goes on to the next pass: the state is
    unchanged and the poll-interval sleep of that pass is skipped.  The
    10 seconds are shorter than the poll interval exactly when
    [poll_seconds] is above 10. *)
Theorem backoff_without_battery env l :
  sensors_battery env = Ok None →
  tick env l = (Ok (), push (ESleep 10) l) ∧
  last_alert (tick env l).2 = last_alert l ∧
  (∀ p, SETTINGS (lw l) !! "poll_seconds" = Some (PInt p) →
        poll_interval (SETTINGS (lw l)) = Ok (Z.max 5 p) ∧
        (10 < Z.max 5 p ↔ 10 < p)).
Proof.
  intros Hb.
  assert (Ht : tick env l = (Ok (), push (ESleep 10) l)).
  { rewrite tick_unfold. unfold tick_body.
    unfold mbind at 1, M_bind at 1, lift_result at 1. rewrite Hb. reflexivity. }
  split; [exact Ht|]. split; [by rewrite Ht|].
  intros p Hp. unfold poll_interval, dict_get. rewrite Hp. simpl. split; [reflexivity|lia].
Qed.

Lemma backoff_without_battery_witness :
  tick no_battery (a_loop DEFAULTS ALow)
  = (Ok (), push (ESleep 10) (a_loop DEFAULTS ALow)).
Proof. exact (proj1 (backoff_without_battery no_battery (a_loop DEFAULTS ALow) eq_refl)). Defined.

(** C5 (counterexample): with [poll_seconds] at 5 the poll interval is 5
    seconds, and the pass without a battery sleeps 10: the backoff is not
    shorter than the poll interval. *)
Lemma backoff_not_shorter :
  let l := a_loop (mk_settings 20 80 5 true) ANone in
  out (lw (tick no_battery l).2) = [ESleep 10] ∧
  poll_interval (SETTINGS (lw l)) = Ok 5 ∧
  ¬ (10 < 5).
Proof. split; [reflexivity|]. split; [reflexivity|lia]. Qed.

(** C3 (the failing input): with [{"poll_seconds": null}] in the
    settings file, a pass in which the battery read raises logs the
    exception, and then [int(None)] on line 219, outside the [try],
    raises [TypeError] out of [main_loop]: the second pass never runs. *)
Theorem loop_ends_on_null_poll_seconds :
  let w0 := boot (a_host (Document (PDict {[ "poll_seconds" := PNone ]}))) in
  let env := sensor_failure (Exn RuntimeError "sensor") in
  let run := main (λ _, None) [] [] [env; env] w0 in
  run.1 = Raise (Exn TypeError
                   "int() argument must be a string, a bytes-like object or a real number, not 'NoneType'") ∧
  out run.2 = [EEnable; EPrint "An error occurred: sensor"].
Proof. split; reflexivity. Qed.

(** ** The settings dialog *)

Lemma clamp_max_min a b x : a ≤ b → Z.max a (Z.min b x) = clamp a b x.
Proof.
  intros Hab. unfold clamp.
  destruct (x <? a) eqn:H1; [apply Z.ltb_lt in H1; lia|].
  apply Z.ltb_ge in H1.
  destruct (b <? x) eqn:H2; [apply Z.ltb_lt in H2 | apply Z.ltb_ge in H2]; lia.
Qed.

Lemma assign_numbers_lookup lo hi po d :
  assign_numbers lo hi po d !! "low_threshold" = Some (PInt (clamp 1 100 lo)) ∧
  assign_numbers lo hi po d !! "high_threshold" = Some (PInt (clamp 1 100 hi)) ∧
  assign_numbers lo hi po d !! "poll_seconds" = Some (PInt (clamp 5 600 po)) ∧
  assign_numbers lo hi po d !! "start_with_windows" = d !! "start_with_windows".
Proof.
  unfold assign_numbers. rewrite <- !clamp_max_min by lia.
  repeat split; by simplify_map_eq.
Qed.

Lemma save_and_close_body_numeric d lo hi po old :
  low_var d = Num lo → high_var d = Num hi → poll_var d = Num po →
  s d !! "start_with_windows" = Some old →
  save_and_close_body d
  = register_and_save old (set_s (assign_numbers lo hi po (s d)) d).
Proof.
  intros Hlo Hhi Hpo Hold.
  assert (Hl : assign_numbers lo hi po (s d) !! "start_with_windows" = Some old)
    by (by rewrite (proj2 (proj2 (proj2 (assign_numbers_lookup lo hi po (s d)))))).
  unfold save_and_close_body, register_and_save, assign_numbers in *.
  destruct d as [w s0 lv hv pv sv ro]. simpl in *. subst lv hv pv.
  unfold mbind, M_bind, gets, intvar_get, setitem_s, modify, mret, M_ret, lift_result,
    getitem. simpl. rewrite Hl. reflexivity.
Qed.

Ltac unfold_dialog :=
  unfold register_and_save, enable_auto_startup, disable_auto_startup, import_win32com,
    create_shortcut, remove_shortcut, root_destroy, save_settings, ensure_app_dir,
    write_json, setitem_s, in_world, on_host, zoom, emit, try_except, gets, modify,
    raise, mbind, M_bind, mret, M_ret.

(** C9: on a save with numeric entries, startup registration is called
    exactly when the check box differs from the flag that was loaded: one
    call to [enable_auto_startup] and none to [disable_auto_startup] when
    it goes from false to true, one call to [disable_auto_startup] when
    it goes from true to false, no call at all when it is unchanged. *)
Theorem registration_on_change d lo hi po old :
  low_var d = Num lo → high_var d = Num hi → poll_var d = Num po →
  s d !! "start_with_windows" = Some (PBool old) →
  ∃ new, out (dw (save_and_close d).2) = out (dw d) ++ new ∧
    registrations new =
      match old, start_with_windows_var d with
      | false, true => [EEnable]
      | true, false => [EDisable]
      | _, _ => []
      end.
Proof.
  intros Hlo Hhi Hpo Hold. unfold save_and_close, try_except.
  rewrite (save_and_close_body_numeric d lo hi po (PBool old) Hlo Hhi Hpo Hold).
  destruct d as [[[ad mk f wo pl pw sc so] S o] s0 lv hv pv sv ro].
  clear Hlo Hhi Hpo Hold. unfold_dialog.
  destruct old, sv, pw, pl, sc, so, ad, mk, wo; simpl;
    eexists; (split; [rewrite <- ?app_assoc; reflexivity | reflexivity]).
Qed.

Lemma registration_on_change_witness :
  ∃ new, out (dw (save_and_close
                    {| dw := a_world DEFAULTS; s := mk_settings 20 80 60 false;
                       low_var := Num 20; high_var := Num 80; poll_var := Num 60;
                       start_with_windows_var := true; root_open := true |}).2)
         = [] ++ new ∧
         registrations new = [EEnable].
Proof.
  exact (registration_on_change
           {| dw := a_world DEFAULTS; s := mk_settings 20 80 60 false;
              low_var := Num 20; high_var := Num 80; poll_var := Num 60;
              start_with_windows_var := true; root_open := true |}
           20 80 60 false eq_refl eq_refl eq_refl eq_refl).
Defined.

(** The dictionary [s] after [save_and_close] on numeric entries. *)
Lemma save_and_close_s d lo hi po :
  low_var d = Num lo → high_var d = Num hi → poll_var d = Num po →
  s (save_and_close d).2 =
    match s d !! "start_with_windows" with
    | Some old =>
        if bool_ne (start_with_windows_var d) old
        then <["start_with_windows" := PBool (start_with_windows_var d)]>
               (assign_numbers lo hi po (s d))
        else assign_numbers lo hi po (s d)
    | None => assign_numbers lo hi po (s d)
    end.
Proof.
  intros Hlo Hhi Hpo. destruct (s d !! "start_with_windows") as [old|] eqn:Hold.
  - unfold save_and_close, try_except.
    rewrite (save_and_close_body_numeric d lo hi po old Hlo Hhi Hpo Hold).
    destruct d as [[[ad mk f wo pl pw sc so] S o] s0 lv hv pv sv ro].
    clear Hlo Hhi Hpo Hold. unfold_dialog. simpl.
    destruct (bool_ne sv old), sv, pw, pl, sc, so, ad, mk, wo; reflexivity.
  - assert (Hl : assign_numbers lo hi po (s d) !! "start_with_windows" = None)
      by (by rewrite (proj2 (proj2 (proj2 (assign_numbers_lookup lo hi po (s d)))))).
    unfold save_and_close, save_and_close_body, assign_numbers in *.
    destruct d as [w s0 lv hv pv sv ro]. simpl in *. subst lv hv pv.
    unfold try_except, mbind, M_bind, gets, intvar_get, setitem_s, modify, mret, M_ret,
      lift_result, getitem. simpl. rewrite Hl. reflexivity.
Qed.

(** What [save_and_close] leaves on the machine when nothing fails. *)
Lemma save_and_close_saves d lo hi po old :
  low_var d = Num lo → high_var d = Num hi → poll_var d = Num po →
  s d !! "start_with_windows" = Some old →
  pywin32 (machine (dw d)) = true →
  dir_ready (machine (dw d)) = true → write_ok (machine (dw d)) = true →
  (save_and_close d).1 = Ok () ∧
  settings_file (machine (dw (save_and_close d).2))
  = Document (PDict (s (save_and_close d).2)) ∧
  SETTINGS (dw (save_and_close d).2) = s (save_and_close d).2 ∪ SETTINGS (dw d) ∧
  root_open (save_and_close d).2 = false.
Proof.
  intros Hlo Hhi Hpo Hold. unfold save_and_close, try_except, dir_ready.
  rewrite (save_and_close_body_numeric d lo hi po old Hlo Hhi Hpo Hold).
  destruct d as [[[ad mk f wo pl pw sc so] S o] s0 lv hv pv sv ro].
  clear Hlo Hhi Hpo Hold. simpl. intros -> Hd ->. unfold_dialog. simpl.
  destruct (bool_ne sv old), sv, pl, sc, so, ad, mk; try discriminate Hd;
    simpl; repeat split; reflexivity.
Qed.

(** C8: on a save with numeric entries, the low and high thresholds that
    are stored are the entries brought into 1..100 and the poll interval
    that is stored is the entry brought into 5..600: the dictionary [s]
    holds them, and when the save goes through the settings file holds
    that dictionary.  Entering 0 for the low threshold stores 1 and
    entering 2 for the poll interval stores 5. *)
Theorem clamping_on_save :
  (∀ d lo hi po,
     low_var d = Num lo → high_var d = Num hi → poll_var d = Num po →
     let d' := (save_and_close d).2 in
     (s d' !! "low_threshold" = Some (PInt (clamp 1 100 lo)) ∧
      s d' !! "high_threshold" = Some (PInt (clamp 1 100 hi)) ∧
      s d' !! "poll_seconds" = Some (PInt (clamp 5 600 po))) ∧
     (is_Some (s d !! "start_with_windows") →
      pywin32 (machine (dw d)) = true →
      dir_ready (machine (dw d)) = true → write_ok (machine (dw d)) = true →
      settings_file (machine (dw d')) = Document (PDict (s d'))))
  ∧ (match settings_file (machine
             (open_settings_window (λ _, None)
                [TypeLow (Num 0); TypePoll (Num 2); ClickSave]
                (a_world DEFAULTS)).2) with
     | Document (PDict saved) =>
         saved !! "low_threshold" = Some (PInt 1) ∧
         saved !! "poll_seconds" = Some (PInt 5)
     | _ => False
     end).
Proof.
  split; [|by vm_compute].
  intros d lo hi po Hlo Hhi Hpo d'. split.
  - unfold d'. rewrite (save_and_close_s d lo hi po Hlo Hhi Hpo).
    destruct (assign_numbers_lookup lo hi po (s d)) as (H1 & H2 & H3 & _).
    destruct (s d !! "start_with_windows") as [old|]; [|done].
    destruct (bool_ne _ old); [|done].
    rewrite !lookup_insert_ne by done. done.
  - intros [old Hold] Hpw Hd Hw.
    apply (save_and_close_saves d lo hi po old Hlo Hhi Hpo Hold Hpw Hd Hw).
Qed.

Lemma clamping_on_save_witness :
  s (save_and_close
       {| dw := a_world DEFAULTS; s := DEFAULTS;
          low_var := Num 0; high_var := Num 250; poll_var := Num 2;
          start_with_windows_var := true; root_open := true |}).2
    !! "high_threshold" = Some (PInt (clamp 1 100 250)).
Proof.
  exact (proj1 (proj2 (proj1 (proj1 clamping_on_save
           {| dw := a_world DEFAULTS; s := DEFAULTS;
              low_var := Num 0; high_var := Num 250; poll_var := Num 2;
              start_with_windows_var := true; root_open := true |}
           0 250 2 eq_refl eq_refl eq_refl)))).
Defined.

(** ** Further properties of the polling loop *)

Ltac no_sleep_but_10 :=
  let n := fresh "n" in let H := fresh "H" in
  intros n H;
  repeat (apply elem_of_cons in H as [H|H]; [first [discriminate H | by injection H]|]);
  inversion H.

Ltac give_new :=
  first [ exists []; rewrite app_nil_r; split; [reflexivity|]
        | eexists; split; [reflexivity|] ];
  simpl; repeat split; try lia; try done; try no_sleep_but_10.

(** The [try] block of a pass, whatever [SETTINGS] holds and whatever the
    outside does: it leaves the machine and [SETTINGS] alone, adds at
    most one notification, sleeps only the 10 seconds of the no-battery
    case, and has not touched [last_alert] when it raises. *)
Lemma tick_body_shape env l :
  ∃ new, out (lw (tick_body env l).2) = out (lw l) ++ new ∧
         (length (notes new) ≤ 1)%nat ∧
         (∀ n, ESleep n ∈ new → n = 10) ∧
         SETTINGS (lw (tick_body env l).2) = SETTINGS (lw l) ∧
         machine (lw (tick_body env l).2) = machine (lw l) ∧
         (∀ e, (tick_body env l).1 = Raise e →
               last_alert (tick_body env l).2 = last_alert l).
Proof.
  destruct l as [w a]. unfold tick_body. unfold_loop. simpl.
  destruct (sensors_battery env) as [[b|]|e]; simpl; [|give_new..].
  destruct (charging b); simpl.
  - destruct (SETTINGS w !! "high_threshold") as [[|b0|z| | |]|]; simpl; try give_new.
    + destruct (percent b >=? Z_of_bool b0); simpl; [|give_new].
      destruct a; simpl; try destruct (showinfo env); simpl; give_new.
    + destruct (percent b >=? z); simpl; [|give_new].
      destruct a; simpl; try destruct (showinfo env); simpl; give_new.
  - destruct (SETTINGS w !! "low_threshold") as [[|b0|z| | |]|]; simpl; try give_new.
    + destruct (percent b <=? Z_of_bool b0); simpl; [|give_new].
      destruct a; simpl; try destruct (showinfo env); simpl; give_new.
    + destruct (percent b <=? z); simpl; [|give_new].
      destruct a; simpl; try destruct (showinfo env); simpl; give_new.
Qed.

Lemma push_out e l : out (lw (push e l)) = out (lw l) ++ [e].
Proof. reflexivity. Qed.

(** One whole pass, whatever [SETTINGS] holds and whatever the outside
    does. *)
Lemma tick_shape env l :
  ∃ new, out (lw (tick env l).2) = out (lw l) ++ new ∧
         (length (notes new) ≤ 1)%nat ∧
         (∀ n, ESleep n ∈ new → 5 ≤ n) ∧
         SETTINGS (lw (tick env l).2) = SETTINGS (lw l) ∧
         machine (lw (tick env l).2) = machine (lw l).
Proof.
  destruct (tick_body_shape env l) as (new & Hout & Hone & Hsleep & HS & Hm & _).
  assert (Hsleep' : ∀ n, ESleep n ∈ new → 5 ≤ n).
  { intros n Hn. rewrite (Hsleep n Hn). lia. }
  rewrite tick_unfold. destruct (tick_body env l) as [[[]|e] l']; simpl in *.
  - exists new. done.
  - rewrite poll_sleep_spec. destruct (poll_interval (SETTINGS (lw l'))) as [n|e] eqn:Hp.
    + exists (new ++ [ESleep n]). simpl. rewrite Hout, <- app_assoc.
      split; [done|]. rewrite notes_app, length_app. simpl.
      split; [lia|]. split; [|done].
      intros k [Hk|Hk]%elem_of_app; [by apply Hsleep'|].
      apply list_elem_of_singleton in Hk. injection Hk as ->.
      unfold poll_interval in Hp. destruct (py_int _); [|done].
      simpl in Hp. injection Hp as <-. lia.
    + exists new. done.
  - rewrite poll_sleep_spec. simpl.
    destruct (poll_interval (SETTINGS (lw l'))) as [n|e'] eqn:Hp.
    + exists (new ++ [EPrint ("An error occurred: " +:+ exn_msg e); ESleep n]).
      simpl. rewrite Hout, <- !app_assoc.
      split; [done|]. rewrite notes_app, length_app. simpl.
      split; [lia|]. split; [|done].
      intros k [Hk|Hk]%elem_of_app; [by apply Hsleep'|].
      apply elem_of_cons in Hk as [Hk|Hk]; [discriminate|].
      apply list_elem_of_singleton in Hk. injection Hk as ->.
      unfold poll_interval in Hp. destruct (py_int _); [|done].
      simpl in Hp. injection Hp as <-. lia.
    + exists (new ++ [EPrint ("An error occurred: " +:+ exn_msg e)]).
      simpl. rewrite Hout, <- !app_assoc.
      split; [done|]. rewrite notes_app, length_app. simpl.
      split; [lia|]. split; [|done].
      intros k [Hk|Hk]%elem_of_app; [by apply Hsleep'|].
      apply list_elem_of_singleton in Hk. discriminate.
Qed.

(** A run of passes, whatever [SETTINGS] holds and whatever the outside
    does. *)
Lemma ticks_shape envs l :
  ∃ new, out (lw (ticks envs l).2) = out (lw l) ++ new ∧
         (length (notes new) ≤ length envs)%nat ∧
         (∀ n, ESleep n ∈ new → 5 ≤ n) ∧
         SETTINGS (lw (ticks envs l).2) = SETTINGS (lw l) ∧
         machine (lw (ticks envs l).2) = machine (lw l).
Proof.
  revert l. induction envs as [|env envs IH]; intros l.
  - exists []. simpl. rewrite app_nil_r. repeat split; [lia|]. intros n H. inversion H.
  - rewrite ticks_cons.
    destruct (tick_shape env l) as (new1 & Hout1 & Hone & Hsleep1 & HS1 & Hm1).
    destruct (tick env l) as [[[]|e] l1]; simpl in *.
    + destruct (IH l1) as (new2 & Hout2 & Hlen & Hsleep2 & HS2 & Hm2).
      exists (new1 ++ new2). rewrite Hout2, Hout1, <- app_assoc.
      split; [done|]. rewrite notes_app, length_app.
      split; [lia|]. split; [|split; congruence].
      intros n [Hn|Hn]%elem_of_app; auto.
    + exists new1. repeat split; auto. lia.
Qed.



(** X2: however [SETTINGS] is filled and whatever the outside does, the
    loop never sleeps less than 5 seconds: every sleep of a run is the
    10-second backoff or the poll interval, which [max] keeps at 5 or
    more. *)
Theorem main_loop_sleeps_at_least_5 envs w :
  ∃ new, out (main_loop envs w).2 = out w ++ new ∧ ∀ n, ESleep n ∈ new → 5 ≤ n.
Proof.
  unfold main_loop.
  destruct (ticks_shape envs {| lw := w; last_alert := ANone |})
    as (new & Hout & _ & Hsleep & _).
  exists new. destruct (ticks envs _) as [r l]. done.
Qed.


(** X4: the loop only reads: a run leaves the settings file, the startup
    shortcut and the rest of the machine as they were, and never changes
    [SETTINGS]. *)
Theorem main_loop_only_reads envs w :
  machine (main_loop envs w).2 = machine w ∧
  SETTINGS (main_loop envs w).2 = SETTINGS w.
Proof.
  unfold main_loop.
  destruct (ticks_shape envs {| lw := w; last_alert := ANone |})
    as (new & _ & _ & _ & HS & Hm).
  destruct (ticks envs _) as [r l]. done.
Qed.




(** ** Further properties of the settings store *)

(** X6: when nothing usable is at the settings path (no file, a file
    that cannot be opened, a file that is not JSON), [load_settings]
    returns the defaults and leaves the file as it is. *)
Theorem load_settings_falls_back h :
  dir_ready h = true →
  settings_file h = Absent ∨ settings_file h = Unreadable ∨ settings_file h = Malformed →
  (load_settings h).1 = Ok DEFAULTS ∧
  settings_file (load_settings h).2 = settings_file h.
Proof.
  unfold dir_ready, load_settings, ensure_app_dir. intros Hd Hf.
  destruct h as [ad mk f wo pl pw sc so]; simpl in *.
  destruct Hf as [->|[->| ->]]; destruct ad, mk; try done; split; reflexivity.
Qed.

Lemma load_settings_falls_back_witness :
  (load_settings (a_host Malformed)).1 = Ok DEFAULTS.
Proof.
  exact (proj1 (load_settings_falls_back (a_host Malformed) eq_refl
                  (or_intror (or_intror eq_refl)))).
Defined.

(** X7: [load_settings] raises in two cases only: the application
    directory is missing and cannot be created, or the settings file
    holds a JSON document that is not an object. *)
Theorem load_settings_raises_iff h :
  (∃ e, (load_settings h).1 = Raise e) ↔
  dir_ready h = false ∨
  (∃ v, settings_file h = Document v ∧ ∀ d, v ≠ PDict d).
Proof.
  unfold dir_ready, load_settings, ensure_app_dir.
  destruct h as [ad mk f wo pl pw sc so]; simpl. split.
  - intros [e He]. destruct ad, mk; simpl in *; auto;
      (destruct f as [| | |v]; simpl in *; try discriminate He;
       destruct v; simpl in *; try discriminate He;
       right; eexists; (split; [reflexivity | intros d'; discriminate])).
  - intros [Hd|(v & -> & Hv)].
    + destruct ad, mk; try discriminate Hd. simpl. eauto.
    + destruct ad, mk; simpl; eauto;
        (destruct v; simpl; eauto; by destruct (Hv d)).
Qed.

(** X8: whatever [load_settings] returns has exactly the four keys of
    [DEFAULTS], so [SETTINGS["low_threshold"]] and the other lookups of
    the script never raise [KeyError]; and loading never writes the
    settings file. *)
Theorem load_settings_keys h cfg :
  (load_settings h).1 = Ok cfg →
  dom cfg = dom DEFAULTS ∧
  (∀ k, k ∈ dom DEFAULTS → ∃ v, getitem cfg k = Ok v) ∧
  settings_file (load_settings h).2 = settings_file h.
Proof.
  unfold load_settings, ensure_app_dir.
  destruct h as [ad mk f wo pl pw sc so]; simpl.
  assert (Hkeys : ∀ c : gmap string pyval, dom c = dom DEFAULTS →
            ∀ k, k ∈ dom DEFAULTS → ∃ v, getitem c k = Ok v).
  { intros c Hc k Hk. rewrite <- Hc in Hk. apply elem_of_dom in Hk as [v Hv].
    exists v. unfold getitem. by rewrite Hv. }
  assert (H0 : overlay ∅ DEFAULTS = DEFAULTS).
  { apply map_eq. intros k. rewrite overlay_lookup, lookup_empty.
    by destruct (DEFAULTS !! k). }
  destruct ad, mk; simpl; try discriminate;
    (destruct f as [| | |v]; simpl; [| | |destruct v; simpl]; try discriminate;
     intros [= <-]; rewrite ?H0; (split; [|split; [apply Hkeys|reflexivity]]);
     first [reflexivity | apply overlay_dom]).
Qed.

Lemma load_settings_keys_witness :
  ∃ v, getitem (overlay {[ "poll_seconds" := PNone; "theme" := PStr "dark" ]} DEFAULTS)
               "high_threshold" = Ok v.
Proof.
  apply (proj1 (proj2 (load_settings_keys
           (a_host (Document (PDict {[ "poll_seconds" := PNone; "theme" := PStr "dark" ]})))
           _ eq_refl))).
  by vm_compute.
Defined.




(** ** Startup registration *)

Ltac unfold_registration :=
  unfold enable_auto_startup, disable_auto_startup, import_win32com,
    create_shortcut, remove_shortcut, emit, try_except, gets, modify,
    raise, mbind, M_bind, mret, M_ret.

(** X11: with pywin32 installed [enable_auto_startup] never raises: on
    Windows it leaves the shortcut in place when it can create it and
    prints the failure when it cannot; elsewhere it does nothing.  It
    touches nothing but the shortcut. *)
Theorem enable_auto_startup_outcome w :
  pywin32 (machine w) = true →
  (enable_auto_startup w).1 = Ok () ∧
  machine (enable_auto_startup w).2
  = (if platform_win32 (machine w) && shortcut_ok (machine w)
     then set_shortcut true (machine w) else machine w) ∧
  SETTINGS (enable_auto_startup w).2 = SETTINGS w ∧
  out (enable_auto_startup w).2
  = out w ++ EEnable ::
      (if platform_win32 (machine w) && negb (shortcut_ok (machine w))
       then [EPrint "Failed to enable auto-startup: CreateShortCut"] else []).
Proof.
  destruct w as [[ad mk f wo pl pw sc so] S o]. simpl. intros ->.
  unfold_registration. simpl.
  destruct pl, so; simpl; rewrite <- ?app_assoc; repeat split; reflexivity.
Qed.

Lemma enable_auto_startup_outcome_witness :
  shortcut (machine (enable_auto_startup (a_world DEFAULTS)).2) = true.
Proof.
  destruct (enable_auto_startup_outcome (a_world DEFAULTS) eq_refl) as (_ & Hm & _).
  rewrite Hm. reflexivity.
Defined.

(** X12: [disable_auto_startup] never raises, whatever the machine: on
    Windows it removes the shortcut when there is one and it can, prints
    the failure when it cannot, and is silent when there is none;
    elsewhere it does nothing.  It touches nothing but the shortcut. *)
Theorem disable_auto_startup_outcome w :
  (disable_auto_startup w).1 = Ok () ∧
  machine (disable_auto_startup w).2
  = (if platform_win32 (machine w) && shortcut (machine w) && shortcut_ok (machine w)
     then set_shortcut false (machine w) else machine w) ∧
  SETTINGS (disable_auto_startup w).2 = SETTINGS w ∧
  out (disable_auto_startup w).2
  = out w ++ EDisable ::
      (if platform_win32 (machine w) && shortcut (machine w)
          && negb (shortcut_ok (machine w))
       then [EPrint "Failed to disable auto-startup: remove"] else []).
Proof.
  destruct w as [[ad mk f wo pl pw sc so] S o]. simpl.
  unfold_registration. simpl.
  destruct pl, sc, so; simpl; rewrite <- ?app_assoc; repeat split; reflexivity.
Qed.

(** X13: both registrations are idempotent on the machine: calling one
    twice leaves the machine as calling it once does; and once
    [enable_auto_startup] has put the shortcut in place,
    [disable_auto_startup] removes it. *)
Theorem startup_registration_idempotent w :
  machine (enable_auto_startup (enable_auto_startup w).2).2
  = machine (enable_auto_startup w).2 ∧
  machine (disable_auto_startup (disable_auto_startup w).2).2
  = machine (disable_auto_startup w).2 ∧
  (shortcut (machine (enable_auto_startup w).2) = true →
   shortcut_ok (machine w) = true → platform_win32 (machine w) = true →
   shortcut (machine (disable_auto_startup (enable_auto_startup w).2).2) = false).
Proof.
  destruct w as [[ad mk f wo pl pw sc so] S o]. unfold_registration. simpl.
  destruct pw, pl, sc, so; simpl; repeat split; try reflexivity; try discriminate.
Qed.

Lemma startup_registration_idempotent_witness :
  shortcut (machine (disable_auto_startup
                       (enable_auto_startup (a_world DEFAULTS)).2).2) = false.
Proof.
  exact (proj2 (proj2 (startup_registration_idempotent (a_world DEFAULTS)))
           eq_refl eq_refl eq_refl).
Defined.

(** ** Further properties of the settings dialog *)

(** X14: when one of the three entries is not a number, [save_and_close]
    shows the "Invalid Input" box and nothing else happens: the window
    stays open, nothing is written, [SETTINGS] is unchanged and startup
    registration is not called. *)
Theorem save_and_close_invalid_entry d :
  low_var d = Garbage ∨ high_var d = Garbage ∨ poll_var d = Garbage →
  (save_and_close d).1 = Ok () ∧
  out (dw (save_and_close d).2)
  = out (dw d) ++ [EShowError "Invalid Input" "Please enter valid numbers."] ∧
  machine (dw (save_and_close d).2) = machine (dw d) ∧
  SETTINGS (dw (save_and_close d).2) = SETTINGS (dw d) ∧
  root_open (save_and_close d).2 = root_open d.
Proof.
  intros Hbad. destruct d as [[h S o] s0 lv hv pv sv ro]. simpl in Hbad.
  unfold save_and_close, save_and_close_body.
  unfold try_except, mbind, M_bind, gets, intvar_get, setitem_s, modify, mret, M_ret,
    in_world, zoom, emit, raise.
  destruct lv as [lo|]; simpl; [|done].
  destruct hv as [hi|]; simpl; [|done].
  destruct pv as [po|]; simpl; [|done].
  destruct Hbad as [H|[H|H]]; discriminate H.
Qed.

Lemma save_and_close_invalid_entry_witness :
  root_open (save_and_close
               {| dw := a_world DEFAULTS; s := DEFAULTS;
                  low_var := Num 10; high_var := Garbage; poll_var := Num 60;
                  start_with_windows_var := false; root_open := true |}).2 = true.
Proof.
  exact (proj2 (proj2 (proj2 (proj2 (save_and_close_invalid_entry
           {| dw := a_world DEFAULTS; s := DEFAULTS;
              low_var := Num 10; high_var := Garbage; poll_var := Num 60;
              start_with_windows_var := false; root_open := true |}
           (or_intror (or_introl eq_refl))))))).
Defined.

(** X15: when the settings cannot be written (the directory cannot be
    made or the file cannot be opened), a save with numeric entries ends
    in the "Error" box: the window stays open and neither the settings
    file nor [SETTINGS] changes. *)
Theorem save_and_close_write_failure d lo hi po old :
  low_var d = Num lo → high_var d = Num hi → poll_var d = Num po →
  s d !! "start_with_windows" = Some old →
  pywin32 (machine (dw d)) = true →
  dir_ready (machine (dw d)) && write_ok (machine (dw d)) = false →
  (save_and_close d).1 = Ok () ∧
  (∃ msg, last (out (dw (save_and_close d).2)) = Some (EShowError "Error" msg)) ∧
  settings_file (machine (dw (save_and_close d).2)) = settings_file (machine (dw d)) ∧
  SETTINGS (dw (save_and_close d).2) = SETTINGS (dw d) ∧
  root_open (save_and_close d).2 = root_open d.
Proof.
  intros Hlo Hhi Hpo Hold. unfold save_and_close, try_except, dir_ready.
  rewrite (save_and_close_body_numeric d lo hi po old Hlo Hhi Hpo Hold).
  destruct d as [[[ad mk f wo pl pw sc so] S o] s0 lv hv pv sv ro].
  clear Hlo Hhi Hpo Hold. simpl. intros -> Hd. unfold_dialog. simpl.
  destruct (bool_ne sv old), sv, pl, sc, so, ad, mk, wo; try discriminate Hd; simpl;
    (split; [reflexivity|]);
    (split; [eexists; apply last_snoc|]);
    repeat split; reflexivity.
Qed.

Lemma save_and_close_write_failure_witness :
  settings_file (machine (dw (save_and_close
    {| dw := {| machine := {| app_dir := true; mkdir_ok := true;
                              settings_file := Malformed; write_ok := false;
                              platform_win32 := true; pywin32 := true;
                              shortcut := false; shortcut_ok := true |};
                SETTINGS := DEFAULTS; out := [] |};
       s := DEFAULTS; low_var := Num 10; high_var := Num 90; poll_var := Num 30;
       start_with_windows_var := true; root_open := true |}).2))
  = Malformed.
Proof.
  exact (proj1 (proj2 (proj2 (save_and_close_write_failure
    {| dw := {| machine := {| app_dir := true; mkdir_ok := true;
                              settings_file := Malformed; write_ok := false;
                              platform_win32 := true; pywin32 := true;
                              shortcut := false; shortcut_ok := true |};
                SETTINGS := DEFAULTS; out := [] |};
       s := DEFAULTS; low_var := Num 10; high_var := Num 90; poll_var := Num 30;
       start_with_windows_var := true; root_open := true |}
    10 90 30 (PBool true) eq_refl eq_refl eq_refl eq_refl eq_refl eq_refl)))).
Defined.

Lemma mainloop_cons a acts d :
  mainloop (a :: acts) d =
    if root_open d then
      match handle a d with
      | (Ok _, d') => mainloop acts d'
      | (Raise e, d') => (Raise e, d')
      end
    else (Ok (), d).
Proof.
  simpl. unfold mbind, M_bind, gets. simpl. destruct (root_open d); reflexivity.
Qed.

(** A session in which Save is never clicked: the callbacks return, and
    they change neither the machine, nor [SETTINGS], nor the dictionary
    [s]; the only thing that can happen is that the window is destroyed. *)
Lemma mainloop_without_save acts d :
  ClickSave ∉ acts →
  (mainloop acts d).1 = Ok () ∧
  machine (dw (mainloop acts d).2) = machine (dw d) ∧
  SETTINGS (dw (mainloop acts d).2) = SETTINGS (dw d) ∧
  s (mainloop acts d).2 = s d ∧
  ∃ new, out (dw (mainloop acts d).2) = out (dw d) ++ new ∧
         ∀ e, e ∈ new → e = EDestroy.
Proof.
  revert d. induction acts as [|a acts IH]; intros d Hns.
  - simpl. repeat split. exists []. rewrite app_nil_r. split; [done|].
    intros e H. inversion H.
  - rewrite mainloop_cons.
    assert (Hns' : ClickSave ∉ acts) by (intros H; apply Hns; by right).
    assert (Ha : a ≠ ClickSave) by (intros ->; apply Hns; by left).
    destruct (root_open d) eqn:Hopen.
    + destruct a; try done; simpl;
        unfold modify, root_destroy, in_world, zoom, emit, modify, mbind, M_bind; simpl;
        match goal with |- context [mainloop acts ?d'] =>
          destruct (IH d' Hns') as (Hok & Hm & HS & Hs & new & Hout & Hnew)
        end;
        simpl in *; (split; [exact Hok|]); (split; [exact Hm|]);
        (split; [exact HS|]); (split; [exact Hs|]).
      * exists new. done.
      * exists new. done.
      * exists new. done.
      * exists new. done.
      * exists (EDestroy :: new). rewrite Hout, <- app_assoc. split; [done|].
        intros e [->|He]%elem_of_cons; auto.
    + simpl. repeat split. exists []. rewrite app_nil_r. split; [done|].
      intros e H. inversion H.
Qed.

Arguments mainloop : simpl never.

Lemma load_settings_host h :
  settings_file (load_settings h).2 = settings_file h ∧
  shortcut (load_settings h).2 = shortcut h ∧
  pywin32 (load_settings h).2 = pywin32 h ∧
  write_ok (load_settings h).2 = write_ok h ∧
  platform_win32 (load_settings h).2 = platform_win32 h ∧
  shortcut_ok (load_settings h).2 = shortcut_ok h ∧
  (dir_ready h = true → dir_ready (load_settings h).2 = true).
Proof.
  unfold dir_ready, load_settings, ensure_app_dir.
  destruct h as [ad mk f wo pl pw sc so]; simpl.
  destruct ad, mk; simpl; try done;
    (destruct f as [| | |v]; simpl; [| | |destruct v; simpl]; done).
Qed.

Lemma bind_unfold {S A B} (m : M S A) (f : A → M S B) (x : S) :
  (m ≫= f) x = match m x with
               | (Ok a, x') => f a x'
               | (Raise e, x') => (Raise e, x')
               end.
Proof. reflexivity. Qed.

Lemma import_win32com_spec w :
  import_win32com w =
    if pywin32 (machine w) then (Ok (), w)
    else (Raise (Exn ImportError "No module named 'win32com'"), w).
Proof. unfold import_win32com. rewrite bind_unfold. simpl. by destruct (pywin32 _). Qed.

(** X16: a session of the dialog in which Save is never clicked writes
    nothing: whatever else the user does and whatever is in the settings
    file, the file, the startup shortcut and [SETTINGS] are as before,
    and the only thing shown is the window being destroyed. *)
Theorem open_settings_window_without_save tcl acts w :
  ClickSave ∉ acts →
  let w' := (open_settings_window tcl acts w).2 in
  settings_file (machine w') = settings_file (machine w) ∧
  shortcut (machine w') = shortcut (machine w) ∧
  SETTINGS w' = SETTINGS w ∧
  ∃ new, out w' = out w ++ new ∧ ∀ e, e ∈ new → e = EDestroy.
Proof.
  intros Hns. destruct w as [h S o]. cbv zeta.
  set (Q := λ w' : world,
         settings_file (machine w') = settings_file h ∧
         shortcut (machine w') = shortcut h ∧
         SETTINGS w' = S ∧
         ∃ new, out w' = o ++ new ∧ ∀ e, e ∈ new → e = EDestroy).
  change (Q (open_settings_window tcl acts {| machine := h; SETTINGS := S; out := o |}).2).
  assert (Hnone : ∃ new : list event, o = o ++ new ∧ ∀ e, e ∈ new → e = EDestroy).
  { exists []. rewrite app_nil_r. split; [done|]. intros e H. inversion H. }
  destruct (load_settings_host h) as (Hf & Hsc & _).
  unfold open_settings_window.
  rewrite bind_unfold, import_win32com_spec. simpl.
  destruct (pywin32 h); simpl; [|by repeat split].
  rewrite bind_unfold. unfold on_host, zoom. simpl.
  destruct (load_settings h) as [[cfg|e] h']; simpl in *; [|by repeat split].
  rewrite bind_unfold. unfold lift_result at 1.
  destruct (v ← getitem cfg "low_threshold"; py_int v) as [lo|e]; [|by repeat split].
  rewrite bind_unfold. unfold lift_result at 1.
  destruct (v ← getitem cfg "high_threshold"; py_int v) as [hi|e]; [|by repeat split].
  rewrite bind_unfold. unfold lift_result at 1.
  destruct (v ← getitem cfg "poll_seconds"; py_int v) as [po|e]; [|by repeat split].
  rewrite bind_unfold. unfold lift_result at 1.
  destruct (v ← getitem cfg "start_with_windows"; booleanvar_init tcl v) as [st|e];
    [|by repeat split].
  unfold with_dialog.
  match goal with |- context [mainloop acts ?d0] =>
    destruct (mainloop_without_save acts d0 Hns) as (_ & Hm & HS & _ & new & Hout & Hnew);
    destruct (mainloop acts d0) as [r d']
  end.
  unfold Q. simpl in *. rewrite Hm. simpl.
  split; [exact Hf|]. split; [exact Hsc|]. split; [exact HS|]. exists new. done.
Qed.

Lemma open_settings_window_without_save_witness :
  settings_file (machine (open_settings_window (λ _, None)
                            [TypeLow (Num 5); ToggleStart; ClickCancel; TypePoll Garbage]
                            {| machine := a_host Malformed; SETTINGS := DEFAULTS;
                               out := [] |}).2) = Malformed.
Proof.
  apply (open_settings_window_without_save (λ _, None)
           [TypeLow (Num 5); ToggleStart; ClickCancel; TypePoll Garbage]
           {| machine := a_host Malformed; SETTINGS := DEFAULTS; out := [] |}).
  intros H. repeat (apply elem_of_cons in H as [H|H]; [discriminate H|]). inversion H.
Defined.




Lemma assign_numbers_in_range lo hi po sw :
  1 ≤ lo ≤ 100 → 1 ≤ hi ≤ 100 → 5 ≤ po ≤ 600 →
  assign_numbers lo hi po (mk_settings lo hi po sw) = mk_settings lo hi po sw.
Proof.
  intros Hlo Hhi Hpo. unfold assign_numbers.
  replace (Z.max 1 (Z.min 100 lo)) with lo by lia.
  replace (Z.max 1 (Z.min 100 hi)) with hi by lia.
  replace (Z.max 5 (Z.min 600 po)) with po by lia.
  rewrite !insert_id; [done|..]; by simplify_map_eq.
Qed.

(** X18: opening the dialog on a settings file whose values are in range
    and clicking Save without touching anything writes the same settings
    back, closes the window, refreshes [SETTINGS] and calls no startup
    registration. *)
Theorem save_without_edit tcl w lo hi po sw :
  1 ≤ lo ≤ 100 → 1 ≤ hi ≤ 100 → 5 ≤ po ≤ 600 →
  pywin32 (machine w) = true → dir_ready (machine w) = true →
  write_ok (machine w) = true →
  settings_file (machine w) = Document (PDict (mk_settings lo hi po sw)) →
  (open_settings_window tcl [ClickSave] w).1 = Ok () ∧
  settings_file (machine (open_settings_window tcl [ClickSave] w).2)
  = Document (PDict (mk_settings lo hi po sw)) ∧
  out (open_settings_window tcl [ClickSave] w).2 = out w ++ [EDestroy] ∧
  SETTINGS (open_settings_window tcl [ClickSave] w).2
  = mk_settings lo hi po sw ∪ SETTINGS w.
Proof.
  intros Hlo Hhi Hpo Hpw Hd Hw Hf. destruct w as [h S o]. simpl in Hpw, Hd, Hw, Hf.
  set (Q := λ rw : result () * world,
         rw.1 = Ok () ∧
         settings_file (machine rw.2) = Document (PDict (mk_settings lo hi po sw)) ∧
         out rw.2 = o ++ [EDestroy] ∧
         SETTINGS rw.2 = mk_settings lo hi po sw ∪ S).
  change (Q (open_settings_window tcl [ClickSave]
               {| machine := h; SETTINGS := S; out := o |})).
  unfold open_settings_window.
  rewrite bind_unfold, import_win32com_spec. simpl. rewrite Hpw.
  rewrite bind_unfold. unfold on_host, zoom. simpl.
  rewrite (load_settings_document h _ Hd Hf). simpl.
  rewrite (overlay_same_dom _ _ (mk_settings_dom lo hi po sw)).
  rewrite bind_unfold. unfold lift_result at 1.
  replace (v ← getitem (mk_settings lo hi po sw) "low_threshold"; py_int v)
    with (Ok lo : result Z) by reflexivity.
  rewrite bind_unfold. unfold lift_result at 1.
  replace (v ← getitem (mk_settings lo hi po sw) "high_threshold"; py_int v)
    with (Ok hi : result Z) by reflexivity.
  rewrite bind_unfold. unfold lift_result at 1.
  replace (v ← getitem (mk_settings lo hi po sw) "poll_seconds"; py_int v)
    with (Ok po : result Z) by reflexivity.
  rewrite bind_unfold. unfold lift_result at 1.
  replace (v ← getitem (mk_settings lo hi po sw) "start_with_windows";
           booleanvar_init tcl v)
    with (Ok sw : result bool) by reflexivity.
  unfold with_dialog. rewrite mainloop_cons. simpl.
  unfold save_and_close, try_except.
  erewrite save_and_close_body_numeric; [|reflexivity..].
  simpl. rewrite (assign_numbers_in_range lo hi po sw Hlo Hhi Hpo).
  destruct h as [ad mk f wo pl pw sc so]. unfold dir_ready in Hd. simpl in *. subst.
  unfold_dialog. simpl.
  destruct sw, ad, mk; try discriminate Hd; unfold Q; simpl; done.
Qed.

Lemma save_without_edit_witness :
  settings_file (machine (open_settings_window (λ _, None) [ClickSave]
    {| machine := a_host (Document (PDict (mk_settings 25 75 120 false)));
       SETTINGS := DEFAULTS; out := [] |}).2)
  = Document (PDict (mk_settings 25 75 120 false)).
Proof.
  apply (save_without_edit (λ _, None)
           {| machine := a_host (Document (PDict (mk_settings 25 75 120 false)));
              SETTINGS := DEFAULTS; out := [] |} 25 75 120 false);
    (lia || reflexivity).
Defined.

(** ** The script *)

Arguments main_loop : simpl never.

Lemma module_init_spec w :
  module_init w =
    match load_settings (machine w) with
    | (Ok cfg, h') => (Ok (), set_SETTINGS cfg (set_machine h' w))
    | (Raise e, h') => (Raise e, set_machine h' w)
    end.
Proof.
  unfold module_init. rewrite bind_unfold. unfold on_host, zoom.
  destruct (load_settings (machine w)) as [[cfg|e] h']; reflexivity.
Qed.

Lemma main_loop_nil w : main_loop [] w = (Ok (), w).
Proof. by destruct w. Qed.

(** X19: started without [--settings], once the settings have loaded the
    script brings the startup shortcut in line with the flag and goes on:
    with pywin32 it calls [enable_auto_startup] when the flag is true and
    [disable_auto_startup] when it is false, exactly once; without
    pywin32 it calls neither and only prints the notice when the flag is
    true.  Nothing is notified, and [SETTINGS] holds what was loaded. *)
Theorem main_startup_sync tcl argv acts w cfg flag :
  head argv ≠ Some "--settings" →
  (load_settings (machine w)).1 = Ok cfg →
  cfg !! "start_with_windows" = Some flag →
  let r := main tcl argv acts [] w in
  r.1 = Ok () ∧ SETTINGS r.2 = cfg ∧
  ∃ new, out r.2 = out w ++ new ∧ notes new = [] ∧
    registrations new
    = (if pywin32 (machine w)
       then [if truthy flag then EEnable else EDisable] else []) ∧
    (pywin32 (machine w) = false →
       new = if truthy flag
             then [EPrint "Auto-startup not supported without pywin32. Please install it with 'pip install pywin32'"]
             else []).
Proof.
  intros Hargv Hload Hflag. cbv zeta.
  set (Q := λ rw : result () * world,
         rw.1 = Ok () ∧ SETTINGS rw.2 = cfg ∧
         ∃ new, out rw.2 = out w ++ new ∧ notes new = [] ∧
           registrations new
           = (if pywin32 (machine w)
              then [if truthy flag then EEnable else EDisable] else []) ∧
           (pywin32 (machine w) = false →
              new = if truthy flag
                    then [EPrint "Auto-startup not supported without pywin32. Please install it with 'pip install pywin32'"]
                    else [])).
  change (Q (main tcl argv acts [] w)).
  destruct (load_settings_host (machine w)) as (_ & _ & Hpw & _ & _ & _ & _).
  unfold main. rewrite bind_unfold, module_init_spec.
  destruct (load_settings (machine w)) as [[cfg'|e] h'] eqn:Hl; simpl in Hload, Hpw;
    [|discriminate]. injection Hload as ->.
  rewrite bool_decide_eq_false_2 by exact Hargv.
  rewrite bind_unfold. unfold gets at 1. simpl.
  rewrite bind_unfold. unfold lift_result, getitem. rewrite Hflag.
  destruct w as [h S o]. simpl in *.
  destruct h' as [ad mk f wo pl pw sc so]. simpl in Hpw.
  rewrite bind_unfold.
  unfold_registration. unfold Q. simpl. rewrite <- Hpw.
  destruct (truthy flag), pw, pl, sc, so; simpl; rewrite ?main_loop_nil; simpl;
    (split; [reflexivity|]); (split; [reflexivity|]);
    first [ exists []; rewrite app_nil_r; by repeat split
          | eexists; (split; [rewrite <- ?app_assoc; reflexivity|]); by repeat split ].
Qed.

Lemma main_startup_sync_witness :
  registrations (out (main (λ _, None) [] [] [] (boot (a_host Absent))).2) = [EEnable].
Proof.
  destruct (main_startup_sync (λ _, None) [] [] (boot (a_host Absent))
              DEFAULTS (PBool true)) as (_ & _ & new & Hout & _ & Hreg & _);
    [discriminate | reflexivity | reflexivity |].
  rewrite Hout. exact Hreg.
Defined.

Lemma load_settings_has_flag h cfg :
  (load_settings h).1 = Ok cfg → ∃ flag, cfg !! "start_with_windows" = Some flag.
Proof.
  unfold load_settings, ensure_app_dir.
  destruct h as [ad mk f wo pl pw sc so]; simpl.
  assert (H0 : ∀ d, ∃ flag, overlay d DEFAULTS !! "start_with_windows" = Some flag).
  { intros d. rewrite overlay_lookup. simpl. eauto. }
  destruct ad, mk; simpl; try discriminate;
    (destruct f as [| | |v]; simpl; [| | |destruct v; simpl]; try discriminate;
     intros [= <-]; apply H0).
Qed.

(** X20: started without [--settings], the script enters the polling
    loop whenever the settings have loaded: neither a missing pywin32 nor
    a shortcut that cannot be created or removed keeps the loop from
    running; the run is the startup part followed by [main_loop]. *)
Theorem main_enters_loop tcl argv acts envs w cfg :
  head argv ≠ Some "--settings" →
  (load_settings (machine w)).1 = Ok cfg →
  (main tcl argv acts [] w).1 = Ok () ∧
  main tcl argv acts envs w = main_loop envs (main tcl argv acts [] w).2.
Proof.
  intros Hargv Hload.
  destruct (load_settings_has_flag _ _ Hload) as [flag Hflag].
  unfold main. rewrite !bind_unfold, module_init_spec.
  destruct (load_settings (machine w)) as [[cfg'|e] h'] eqn:Hl; simpl in Hload;
    [|discriminate]. injection Hload as ->.
  rewrite bool_decide_eq_false_2 by exact Hargv.
  rewrite !bind_unfold. unfold gets at 1 2 3. simpl.
  rewrite !bind_unfold. unfold lift_result, getitem. rewrite Hflag.
  rewrite !bind_unfold.
  destruct w as [h S o]. destruct h' as [ad mk f wo pl pw sc so].
  unfold_registration. simpl.
  destruct (truthy flag), pw, pl, sc, so; simpl; rewrite ?main_loop_nil; simpl;
    split; reflexivity.
Qed.

Lemma main_enters_loop_witness :
  main (λ _, None) [] [] [sample 15 false]
       (boot {| app_dir := true; mkdir_ok := true; settings_file := Absent;
                write_ok := true; platform_win32 := true; pywin32 := false;
                shortcut := false; shortcut_ok := true |})
  = main_loop [sample 15 false]
      (main (λ _, None) [] [] []
         (boot {| app_dir := true; mkdir_ok := true; settings_file := Absent;
                  write_ok := true; platform_win32 := true; pywin32 := false;
                  shortcut := false; shortcut_ok := true |})).2.
Proof.
  apply (main_enters_loop (λ _, None) [] [] [sample 15 false] _ DEFAULTS);
    [discriminate | reflexivity].
Defined.

(** X21: a settings file that holds a JSON document other than an object
    keeps the script from starting in either mode: the module-level
    [load_settings()] raises [AttributeError] before anything is shown,
    printed or registered. *)
Theorem main_stops_on_non_object tcl argv acts envs w v :
  dir_ready (machine w) = true →
  settings_file (machine w) = Document v → (∀ d, v ≠ PDict d) →
  (∃ msg, (main tcl argv acts envs w).1 = Raise (Exn AttributeError msg)) ∧
  out (main tcl argv acts envs w).2 = out w ∧
  shortcut (machine (main tcl argv acts envs w).2) = shortcut (machine w).
Proof.
  intros Hd Hf Hv. unfold main. rewrite bind_unfold, module_init_spec.
  destruct w as [h S o]. simpl in *.
  unfold dir_ready, load_settings, ensure_app_dir.
  destruct h as [ad mk f wo pl pw sc so]; simpl in *. subst f.
  destruct ad, mk; try discriminate Hd; simpl;
    (destruct v; simpl; try (by destruct (Hv d)); eauto).
Qed.

Lemma main_stops_on_non_object_witness :
  ∃ msg, (main (λ _, None) ["--settings"] [ClickCancel] []
            (boot (a_host (Document PNone)))).1 = Raise (Exn AttributeError msg).
Proof.
  apply (main_stops_on_non_object (λ _, None) ["--settings"] [ClickCancel] []
           (boot (a_host (Document PNone))) PNone); [reflexivity | reflexivity |].
  intros d. discriminate.
Defined.
